(** * get_news: the trigger-fetch-and-dedupe pipeline

    A shallow embedding of [src/get_news.py] and [config/default_triggers.py]:
    the usage ledger ([track_api_usage], [get_api_usage_today]), the two
    search entry points ([fetch_news_by_query], [fetch_sales_triggers]), the
    deduplicator ([deduplicate_articles]) and the persister
    ([save_news_to_file]), followed by the properties the specification
    states about them. *)

From Stdlib Require Import ZArith String Ascii List Lia Floats.
From stdpp Require Import base option list gmap strings pretty.

(* stdpp's solvers clear hypotheses by name whether or not they exist. *)
Set Warnings "-clear-no-such-hyp".

Local Open Scope Z_scope.

(** ** Calendar

    The part of Python's [datetime] the module relies on: proleptic Gregorian
    dates between years 1 and 9999, naive date-times, [timedelta] arithmetic
    and the ISO renderings.  Days are counted by stepping the calendar, which
    is what [date.fromordinal (d.toordinal () + n)] denotes. *)

Module Calendar.

Record date := Date { year : Z; month : Z; day : Z }.

Definition MINYEAR : Z := 1.
Definition MAXYEAR : Z := 9999.

Definition is_leap (y : Z) : bool :=
  (y mod 4 =? 0) && (negb (y mod 100 =? 0) || (y mod 400 =? 0)).

Definition days_in_month (y m : Z) : Z :=
  if m =? 2 then (if is_leap y then 29 else 28)
  else if (m =? 4) || (m =? 6) || (m =? 9) || (m =? 11) then 30
  else 31.

(** The class invariant of [datetime.date]. *)
Definition valid_date (d : date) : bool :=
  (MINYEAR <=? year d) && (year d <=? MAXYEAR)
  && (1 <=? month d) && (month d <=? 12)
  && (1 <=? day d) && (day d <=? days_in_month (year d) (month d)).

Definition prev_day (d : date) : date :=
  if 1 <? day d then Date (year d) (month d) (day d - 1)
  else if 1 <? month d
       then Date (year d) (month d - 1) (days_in_month (year d) (month d - 1))
       else Date (year d - 1) 12 31.

Definition next_day (d : date) : date :=
  if day d <? days_in_month (year d) (month d)
  then Date (year d) (month d) (day d + 1)
  else if month d <? 12 then Date (year d) (month d + 1) 1
       else Date (year d + 1) 1 1.

(** The calendar day [n] days after [d] ([n] may be negative). *)
Definition shift_days (d : date) (n : Z) : date :=
  match n with
  | Z0 => d
  | Zpos p => Pos.iter next_day d p
  | Zneg p => Pos.iter prev_day d p
  end.

(** Python orders dates as the tuples (year, month, day). *)
Definition date_compare (a b : date) : comparison :=
  match year a ?= year b with
  | Eq => match month a ?= month b with
          | Eq => day a ?= day b
          | c => c
          end
  | c => c
  end.

Definition date_ltb (a b : date) : bool :=
  match date_compare a b with Lt => true | _ => false end.

Definition date_leb (a b : date) : bool :=
  match date_compare a b with Gt => false | _ => true end.

(** A naive [datetime]: a date and a wall-clock time. *)
Record datetime := DateTime {
  dt_date : date;
  hour : Z;
  minute : Z;
  second : Z;
  microsecond : Z
}.

Definition valid_datetime (t : datetime) : bool :=
  valid_date (dt_date t)
  && (0 <=? hour t) && (hour t <? 24)
  && (0 <=? minute t) && (minute t <? 60)
  && (0 <=? second t) && (second t <? 60)
  && (0 <=? microsecond t) && (microsecond t <? 1000000).

(** A normalised [timedelta]: any number of days, seconds within a day,
    microseconds within a second. *)
Record timedelta := TimeDelta {
  td_days : Z;
  td_seconds : Z;
  td_microseconds : Z
}.

(** [timedelta] refuses more than 999999999 days either way. *)
Definition timedelta_ok (δ : timedelta) : bool :=
  (-999999999 <=? td_days δ) && (td_days δ <=? 999999999).

(** [timedelta (days=d, hours=h)]: the hours are carried into days; [None]
    where Python raises [OverflowError]. *)
Definition timedelta_of (days hours : Z) : option timedelta :=
  let s := hours * 3600 in
  let δ := TimeDelta (days + s / 86400) (s mod 86400) 0 in
  if timedelta_ok δ then Some δ else None.

(** Unary minus, renormalised. *)
Definition timedelta_neg (δ : timedelta) : timedelta :=
  let us := - td_microseconds δ in
  let s := - td_seconds δ + us / 1000000 in
  TimeDelta (- td_days δ + s / 86400) (s mod 86400) (us mod 1000000).

(** [t + δ], or [None] where Python raises [OverflowError]: the time of day
    is added in microseconds, whole days are carried into the date, and the
    date has to stay within [MINYEAR]..[MAXYEAR]. *)
Definition datetime_add (t : datetime) (δ : timedelta) : option datetime :=
  let us := microsecond t + td_microseconds δ in
  let s := hour t * 3600 + minute t * 60 + second t + td_seconds δ
           + us / 1000000 in
  let d := shift_days (dt_date t) (td_days δ + s / 86400) in
  let rem := s mod 86400 in
  if (MINYEAR <=? year d) && (year d <=? MAXYEAR)
  then Some (DateTime d (rem / 3600) ((rem mod 3600) / 60)
                      ((rem mod 3600) mod 60) (us mod 1000000))
  else None.

(** [t - δ] is [t + (-δ)]. *)
Definition datetime_sub (t : datetime) (δ : timedelta) : option datetime :=
  datetime_add t (timedelta_neg δ).

(** *** Renderings *)

(** The decimal digit [n mod 10] as a character. *)
Definition digit (n : Z) : ascii := ascii_of_N (48 + Z.to_N (n mod 10)).

(** [n] zero-padded to [w] digits, the format [%0wd] for [0 <= n < 10^w]. *)
Fixpoint zpad (w : nat) (n : Z) : string :=
  match w with
  | O => EmptyString
  | S w' => String (digit (n / 10 ^ Z.of_nat w')) (zpad w' n)
  end.

(** [date.isoformat ()]; for a year of four digits it is also what
    [strftime] gives for [%Y-%m-%d]. *)
Definition isoformat (d : date) : string :=
  zpad 4 (year d) +:+ "-" +:+ zpad 2 (month d) +:+ "-" +:+ zpad 2 (day d).

(** [datetime.isoformat ()]: the fraction is printed only when it is not 0. *)
Definition datetime_isoformat (t : datetime) : string :=
  isoformat (dt_date t) +:+ "T" +:+ zpad 2 (hour t) +:+ ":"
  +:+ zpad 2 (minute t) +:+ ":" +:+ zpad 2 (second t)
  +:+ (if microsecond t =? 0 then "" else "." +:+ zpad 6 (microsecond t)).

End Calendar.

Import Calendar.

Local Open Scope string_scope.

(** ** Data *)

(** Field values of an article as the pipeline meets them: text, or JSON
    null.  A field that is absent is absent from the map. *)
Inductive jval :=
  | JNull
  | JStr (s : string).

#[global] Instance jval_eq_dec : EqDecision jval.
Proof. solve_decision. Defined.

(** An article is a Python dict from field names to values. *)
Abbreviation article := (gmap string jval).

(** Values held by a response dict, by query parameters and by the result. *)
Inductive rval :=
  | RNull
  | RStr (s : string)
  | RInt (n : Z)
  | RList (l : list article).

#[global] Instance rval_eq_dec : EqDecision rval.
Proof. solve_decision. Defined.

Abbreviation response := (gmap string rval).

(** Python truth of a looked-up value ([None] is what [dict.get] gives for a
    missing key). *)
Definition jtruthy (v : option jval) : bool :=
  match v with
  | Some (JStr s) => negb (String.eqb s "")
  | _ => false
  end.

Definition rtruthy (v : option rval) : bool :=
  match v with
  | Some (RStr s) => negb (String.eqb s "")
  | Some (RInt n) => negb (n =? 0)%Z
  | Some (RList l) => match l with [] => false | _ => true end
  | _ => false
  end.

Definition str_truthy (s : option string) : bool :=
  match s with
  | Some s => negb (String.eqb s "")
  | None => false
  end.

(** A dict whose iteration order matters is kept as its list of items;
    [dict_set] is item assignment: an existing key keeps its place. *)
Fixpoint dict_set {V} (d : list (string * V)) (k : string) (v : V) : list (string * V) :=
  match d with
  | [] => [(k, v)]
  | (k', v') :: d' =>
      if String.eqb k' k then (k', v) :: d' else (k', v') :: dict_set d' k v
  end.

(** The keyword arguments of a call to the search endpoint. *)
Record request := Request {
  q : string;
  from_param : string;
  to : string;
  sort_by : string;
  language : string;
  exclude_domains : option string
}.

(** Exceptions, all of them subclasses of [Exception]: the two the
    interpreter raises here, and whatever the API client raises. *)
Inductive exn :=
  | OverflowError
  | TypeError
  | ClientError (msg : string).

(** The usage file: missing, present but not loadable as JSON, or holding
    a ledger of call counts per ISO date. *)
Inductive usage_store :=
  | NoFile
  | Unreadable
  | Ledger (m : gmap string Z).

(** The document [save_news_to_file] writes. *)
Record metadata := Metadata {
  fetched_at : string;
  expires_at : string;
  query_params : gmap string rval
}.

Record document := Document {
  doc_metadata : metadata;
  doc_status : option rval;
  doc_totalResults : option rval;
  doc_articles : rval
}.

(** Lines printed to standard output, by the statement that prints them. *)
Inductive output :=
  | ErrorFetching (e : exn)
  | ErrorFetchingFor (query : string) (e : exn)
  | Found (n : nat) (query : string)
  | SavedTo (path : string).

(** [posixpath.join] of two components. *)
Definition starts_with_sep (s : string) : bool :=
  match s with String c _ => Ascii.eqb c "/" | EmptyString => false end.

Fixpoint ends_with_sep (s : string) : bool :=
  match s with
  | EmptyString => false
  | String c EmptyString => Ascii.eqb c "/"
  | String _ s' => ends_with_sep s'
  end.

Definition path_join (a b : string) : string :=
  if starts_with_sep b then b
  else if String.eqb a "" || ends_with_sep a then a +:+ b
  else a +:+ "/" +:+ b.

(** *** config/default_triggers.py *)

Definition dq : string := String "034"%char EmptyString.
Definition quoted (s : string) : string := dq +:+ s +:+ dq.

Definition DEFAULT_TRIGGERS : list (string * string) :=
  [ ("Patent & IP",
     "(company OR startup OR firm OR corporation) AND (patent OR "
     +:+ quoted "intellectual property" +:+ " OR " +:+ quoted "IP portfolio"
     +:+ " OR trademark) AND (granted OR filed OR awarded OR secures)");
    ("Product Launch",
     "(company OR startup OR firm) AND (" +:+ quoted "product launch"
     +:+ " OR " +:+ quoted "launches" +:+ " OR " +:+ quoted "unveils"
     +:+ " OR " +:+ quoted "announces" +:+ " OR " +:+ quoted "introduces"
     +:+ " OR " +:+ quoted "new product" +:+ ")");
    ("Expansion",
     "(company OR startup OR firm) AND (expansion OR " +:+ quoted "opens office"
     +:+ " OR " +:+ quoted "opening" +:+ " OR " +:+ quoted "expands into"
     +:+ " OR " +:+ quoted "enters market" +:+ " OR " +:+ quoted "new location"
     +:+ ")") ].

(** Defaults of the keyword arguments. *)
Definition default_query : string :=
  "patent OR " +:+ quoted "intellectual property".
Definition default_sort_by : string := "publishedAt".

(** *** deduplicate_articles *)

(** The loop of [deduplicate_articles]: [seen_urls] and [unique] are the
    two accumulators, [unique] is appended to. *)
Fixpoint dedup_loop (articles : list article) (seen_urls : gset string)
    (unique : list article) : list article :=
  match articles with
  | [] => unique
  | article :: rest =>
      match article !! "url" with
      | Some (JStr url) =>
          if negb (String.eqb url "") && bool_decide (url ∉ seen_urls)
          then dedup_loop rest ({[url]} ∪ seen_urls) (unique ++ [article])
          else dedup_loop rest seen_urls unique
      | _ => dedup_loop rest seen_urls unique
      end
  end.

Definition deduplicate_articles (articles : list article) : list article :=
  dedup_loop articles ∅ [].

(** ** The module's functions

    The world outside the process is a parameter: [world] is its state,
    [clock] what [datetime.now ()] reads in it, and [get_everything] the
    client's call to the search endpoint, which may raise, and after which the
    world (and so the clock) may have moved on.  [base_dir] is the directory
    two levels above the module's file. *)

Section GetNews.

Context {world : Type}.
Variable clock : world → datetime.
Variable get_everything : request → world → (exn + response) * world.
Variable base_dir : string.

(** What the functions read and change: the outside world, the usage file,
    the other files of the data directory, and two logs, the requests handed
    to the client and the lines printed. *)
Record state := State {
  net : world;
  usage_file : usage_store;
  data_files : gmap string document;
  sent : list request;
  stdout : list output
}.

(** A computation changes the state and either returns or raises. *)
Definition M (A : Type) : Type := state → (exn + A) * state.

#[global] Instance M_ret : MRet M := λ A (x : A) (s : state), (inr x, s).

#[global] Instance M_bind : MBind M := λ A B (f : A → M B) (m : M A) (s : state),
  match m s with
  | (inr x, s') => f x s'
  | (inl e, s') => (inl e, s')
  end.

Definition raise {A} (e : exn) : M A := λ s, (inl e, s).

(** [try: body  except Exception as e: handler e]. *)
Definition try_except {A} (body : M A) (handler : exn → M A) : M A := λ s,
  match body s with
  | (inr x, s') => (inr x, s')
  | (inl e, s') => handler e s'
  end.

(** An [OverflowError] of the calendar arithmetic. *)
Definition or_overflow {A} (o : option A) : M A :=
  match o with
  | Some x => mret x
  | None => raise OverflowError
  end.

Definition now : M datetime := λ s, (inr (clock (net s)), s).

Definition print (line : output) : M unit := λ s,
  (inr tt, State (net s) (usage_file s) (data_files s) (sent s) (stdout s ++ [line])).

Definition read_usage : M usage_store := λ s, (inr (usage_file s), s).

Definition write_usage (m : gmap string Z) : M unit := λ s,
  (inr tt, State (net s) (Ledger m) (data_files s) (sent s) (stdout s)).

Definition write_file (path : string) (doc : document) : M unit := λ s,
  (inr tt, State (net s) (usage_file s) (<[path := doc]> (data_files s)) (sent s) (stdout s)).

(** The call [newsapi.get_everything] with the keyword arguments [req]: the
    request reaches the client, which returns a response or raises. *)
Definition call_get_everything (req : request) : M response := λ s,
  let '(res, w) := get_everything req (net s) in
  (res, State w (usage_file s) (data_files s) (sent s ++ [req]) (stdout s)).

Definition data_dir : string := path_join base_dir "data".

(** *** track_api_usage *)

Definition track_api_usage : M unit :=
  t ← now;
  let today := isoformat (dt_date t) in
  (* Load existing usage *)
  file ← read_usage;
  let usage_data : gmap string Z :=
    match file with
    | NoFile => ∅
    | Unreadable => ∅
    | Ledger m => m
    end in
  (* Update today's count *)
  let usage_data :=
    match usage_data !! today with
    | None => <[today := 0%Z]> usage_data
    | Some _ => usage_data
    end in
  let usage_data := alter (λ n, n + 1)%Z today usage_data in
  (* Clean up old entries (keep last 7 days only) *)
  t ← now;
  week ← or_overflow (timedelta_of 7 0);
  cutoff ← or_overflow (datetime_sub t week);
  let cutoff_date := isoformat (dt_date cutoff) in
  let usage_data :=
    filter (λ kv : string * Z, String.leb cutoff_date kv.1 = true) usage_data in
  (* Save *)
  write_usage usage_data.

(** *** get_api_usage_today *)

Definition get_api_usage_today : M Z :=
  t ← now;
  let today := isoformat (dt_date t) in
  file ← read_usage;
  match file with
  | Ledger usage_data => mret (default 0%Z (usage_data !! today))
  | Unreadable => mret 0%Z
  | NoFile => mret 0%Z
  end.

(** *** fetch_news_by_query *)

Definition journal_domains : string := "arxiv.org,ieee.org,springer.com".

Definition fetch_news_by_query (query : string) (days_back : Z) (sort_by : string)
    : M (option response) :=
  t ← now;
  back ← or_overflow (timedelta_of days_back 0);
  start ← or_overflow (datetime_sub t back);
  let from_date := isoformat (dt_date start) in
  t ← now;
  let to_date := isoformat (dt_date t) in
  let exclude_domains := journal_domains in (* exclude journal articles *)
  try_except
    (response ← call_get_everything
       (Request query from_date to_date sort_by "en" (Some exclude_domains));
     track_api_usage;; (* Track this API call *)
     mret (Some response))
    (λ e, print (ErrorFetching e);; mret None).

(** *** fetch_sales_triggers *)

(** The tagging loop over [response ["articles"]]: a list has every article
    assigned its [trigger_type]; a truthy value of another type cannot be
    iterated or assigned into, and raises. *)
Definition tag_articles (trigger_name : string) (v : option rval) : M (list article) :=
  match v with
  | Some (RList l) => mret ((λ article, <["trigger_type" := JStr trigger_name]> article) <$> l)
  | _ => raise TypeError
  end.

(** One turn of the loop over the queries. *)
Definition trigger_step (from_date to_date sort_by : string)
    (all_articles : list article) (entry : string * string) : M (list article) :=
  let '(trigger_name, query) := entry in
  try_except
    (response ← call_get_everything
       (Request query from_date to_date sort_by "en" None);
     track_api_usage;; (* Track this API call *)
     if bool_decide (response !! "status" = Some (RStr "ok"))
        && rtruthy (response !! "articles")
     then
       (* Add source query tag to each article *)
       articles ← tag_articles trigger_name (response !! "articles");
       let all_articles := (all_articles ++ articles)%list in
       print (Found (length articles) query);;
       mret all_articles
     else mret all_articles)
    (λ e, print (ErrorFetchingFor query e);; mret all_articles).

Fixpoint for_each {A B} (body : A → B → M A) (acc : A) (items : list B) : M A :=
  match items with
  | [] => mret acc
  | x :: rest => acc ← body acc x; for_each body acc rest
  end.

(** The f-string of the region filter. *)
Definition with_region (query region : string) : string :=
  "(" +:+ query +:+ ") AND " +:+ region.

(** The block that adds the region filter: a fresh dict filled by item
    assignment when [region] is truthy, the catalog itself otherwise. *)
Definition queries_with_region (trigger_queries : list (string * string))
    (region : option string) : list (string * string) :=
  match region with
  | Some r =>
      if str_truthy region
      then foldl (λ d '(name, query), dict_set d name (with_region query r))
                 [] trigger_queries
      else trigger_queries
  | None => trigger_queries
  end.

Definition fetch_sales_triggers (trigger_queries : option (list (string * string)))
    (days_back : Z) (sort_by : string) (region : option string) : M response :=
  (* Use default triggers if none provided *)
  let trigger_queries := default DEFAULT_TRIGGERS trigger_queries in
  (* Add region filter if specified *)
  let queries_with_region := queries_with_region trigger_queries region in
  t ← now;
  back ← or_overflow (timedelta_of days_back 0);
  start ← or_overflow (datetime_sub t back);
  let from_date := isoformat (dt_date start) in
  t ← now;
  let to_date := isoformat (dt_date t) in
  all_articles ← for_each (trigger_step from_date to_date sort_by) [] queries_with_region;
  (* Remove duplicates based on URL *)
  let unique_articles := deduplicate_articles all_articles in
  mret (<["status" := RStr "ok"]>
        (<["totalResults" := RInt (Z.of_nat (length unique_articles))]>
         (<["articles" := RList unique_articles]> ∅))).

(** *** save_news_to_file *)

Definition save_news_to_file (news_data : option response) (filename : string)
    (query_params : option (gmap string rval)) : M (option string) :=
  match news_data with
  | Some news =>
      if bool_decide (news = ∅) then mret None else
      (* Add metadata *)
      fetched_at ← now;
      day ← or_overflow (timedelta_of 0 24);
      expires ← or_overflow (datetime_add fetched_at day);
      let data_with_metadata :=
        Document (Metadata (datetime_isoformat fetched_at)
                           (datetime_isoformat expires)
                           (default ∅ query_params))
                 (news !! "status")
                 (news !! "totalResults")
                 (default (RList []) (news !! "articles")) in
      let filepath := path_join data_dir filename in
      write_file filepath data_with_metadata;;
      print (SavedTo filepath);;
      mret (Some filepath)
  | None => mret None
  end.

End GetNews.

(** ** Definitions used to state the properties *)

(** The month and the day of a date are in range (the year may be any). *)
Definition fields_ok (d : date) : Prop :=
  (1 <= month d <= 12 ∧ 1 <= day d <= days_in_month (year d) (month d))%Z.

(** A count of days in which every month has 31 of them: it orders dates
    as the calendar does and moves by 1 to 4 with each calendar day. *)
Definition rank (d : date) : Z := (year d * 372 + month d * 31 + day d)%Z.

(** A clock reading the functions can work with: a valid date-time that is
    neither in year 1 nor in year 9999, so that a week before it and a day
    after it exist. *)
Definition clock_ok (t : datetime) : bool :=
  (valid_datetime t && (2 <=? year (dt_date t)) && (year (dt_date t) <=? 9998))%Z.

(** The start of the look-back window, [t - timedelta (days=days_back)]. *)
Definition window_start (t : datetime) (days_back : Z) : option datetime :=
  timedelta_of days_back 0 ≫= datetime_sub t.

(** The ledger [track_api_usage] starts from. *)
Definition ledger_of (file : usage_store) : gmap string Z :=
  match file with
  | Ledger m => m
  | NoFile | Unreadable => ∅
  end.

(** The ledger after one more call on the day [today], and a ledger with
    the keys before [cutoff] dropped; [tracked] is the two in a row, for the
    clock reading [t]. *)
Definition counted (today : string) (m : gmap string Z) : gmap string Z :=
  <[today := (default 0 (m !! today) + 1)%Z]> m.

Definition pruned (cutoff : string) (m : gmap string Z) : gmap string Z :=
  filter (λ kv : string * Z, String.leb cutoff kv.1 = true) m.

Definition tracked (t : datetime) (file : usage_store) : gmap string Z :=
  pruned (isoformat (shift_days (dt_date t) (-7)))
         (counted (isoformat (dt_date t)) (ledger_of file)).

(** The request [fetch_sales_triggers] makes for a query. *)
Definition trigger_request (from_date to_date sort_by query : string) : request :=
  Request query from_date to_date sort_by "en" None.

(** The dict [fetch_sales_triggers] returns for the articles gathered. *)
Definition batch_result (all_articles : list article) : response :=
  let unique_articles := deduplicate_articles all_articles in
  <["status" := RStr "ok"]>
    (<["totalResults" := RInt (Z.of_nat (length unique_articles))]>
      (<["articles" := RList unique_articles]> ∅)).

(** The tag the loop puts on an article. *)
Definition tagged (trigger_name : string) (a : article) : article :=
  <["trigger_type" := JStr trigger_name]> a.

(** The URL of an article, when it has one that is not empty. *)
Definition article_url (a : article) : option string :=
  match a !! "url" with
  | Some (JStr u) => if String.eqb u "" then None else Some u
  | _ => None
  end.

(** The deduplicator as the specification words it: position [i] of the
    input is kept when its article has a URL that no earlier position has,
    and the output is the input restricted to the kept positions. *)
Definition first_with_url (l : list article) (i : nat) : bool :=
  match l !! i with
  | Some a =>
      match article_url a with
      | Some u => forallb (λ b, negb (bool_decide (article_url b = Some u))) (take i l)
      | None => false
      end
  | None => false
  end.

Definition stable_first_filter (l : list article) : list article :=
  omap (λ i, if first_with_url l i then l !! i else None) (seq 0 (length l)).

(** The loop of [deduplicate_articles] without its output accumulator. *)
Fixpoint dedup_from (seen : gset string) (l : list article) : list article :=
  match l with
  | [] => []
  | a :: rest =>
      match article_url a with
      | Some u =>
          if bool_decide (u ∈ seen) then dedup_from seen rest
          else a :: dedup_from ({[u]} ∪ seen) rest
      | None => dedup_from seen rest
      end
  end.

(** The URLs met in a list of articles. *)
Definition urls_of (l : list article) : gset string :=
  list_to_set (omap article_url l).

(** *** A sample world

    The clock stands at half past nine on 3 November 2026; the world counts
    the calls made; the endpoint knows three queries and raises on any
    other. *)

Definition sample_clock (w : nat) : datetime :=
  DateTime (Date 2026 11 3) 9 30 0 0.

Definition url_only (u : string) : article := {[ "url" := JStr u ]}.

Definition ok_response (l : list article) : response :=
  <["status" := RStr "ok"]>
    (<["totalResults" := RInt (Z.of_nat (length l))]>
      (<["articles" := RList l]> ∅)).

Definition sample_api (req : request) (w : nat) : (exn + response) * nat :=
  if String.eqb (q req) "foo"
  then (inr (ok_response [url_only "u1"; url_only "u2"]), S w)
  else if String.eqb (q req) "bar"
  then (inr (ok_response [url_only "u2"; url_only "u3"]), S w)
  else if String.eqb (q req) "baz"
  then (inr (ok_response [url_only "u4"]), S w)
  else (inl (ClientError "bad request"), S w).

Definition sample_ledger : gmap string Z :=
  <["2026-11-03" := 5%Z]> (<["2026-10-27" := 3%Z]> (<["2026-10-26" := 4%Z]> ∅)).

Definition sample_state : state (world := nat) :=
  State 0%nat (Ledger sample_ledger) ∅ [] [].

(** *** fetch_top_headlines

    The second endpoint of the client, with the arguments the function
    passes on; [None] is Python's [None].  The log [sent] is that of the
    search endpoint and is left alone. *)

Record headlines_request := HeadlinesRequest {
  country : option string;
  category : option string;
  sources : option string
}.

Section TopHeadlines.

Context {world : Type}.
Variable clock : world → datetime.
Variable get_top_headlines : headlines_request → world → (exn + response) * world.

Definition call_get_top_headlines (req : headlines_request) : M response := λ s,
  let '(res, w) := get_top_headlines req (net s) in
  (res, State w (usage_file s) (data_files s) (sent s) (stdout s)).

Definition fetch_top_headlines (country category sources : option string)
    : M (option response) :=
  try_except
    (response ← call_get_top_headlines (HeadlinesRequest country category sources);
     track_api_usage clock;; (* Track this API call *)
     mret (Some response))
    (λ e, print (ErrorFetching e);; mret None).

End TopHeadlines.

(** *** Further definitions for the properties *)

(** [n] calls of a function in a row. *)
Fixpoint repeat_call {world : Type} (n : nat) (call : M (world := world) unit)
    : M (world := world) unit :=
  match n with
  | O => mret tt
  | S n' => call;; repeat_call n' call
  end.

(** An article whose URL is not in a set of URLs (one without a URL
    counts). *)
Definition url_unseen (seen : gset string) (a : article) : bool :=
  match article_url a with
  | Some u => bool_decide (u ∉ seen)
  | None => true
  end.

(** An endpoint for headlines that answers for Singapore only. *)
Definition sample_headlines (req : headlines_request) (w : nat)
    : (exn + response) * nat :=
  match country req with
  | Some c =>
      if String.eqb c "sg" then (inr (ok_response [url_only "h1"]), S w)
      else (inl (ClientError "invalid country"), S w)
  | None => (inl (ClientError "invalid country"), S w)
  end.


Definition quiet_api (req : request) (w : nat) : (exn + response) * nat :=
  (inr (ok_response []), S w).

(** *** The usage file as it is on disk

    [usage_store] above holds what the program itself writes.  A file on disk
    may hold any JSON: under a key of an object an integer, a boolean, a
    float, or something that is no number (a string, null, an array, an
    object, kept as its text); or no object at all.  [track_api_usage_file]
    and [get_api_usage_today_file] are lines 143-165 and 172-181 read on
    such contents, for the clock reading [t]; [content_of] is the file a
    [usage_store] stands for. *)

Inductive usage_value :=
  | UInt (n : Z)
  | UBool (b : bool)
  | UFloat (x : float)
  | UOther (text : string).

Inductive usage_json :=
  | JObject (m : gmap string usage_value)
  | JNotObject.

Inductive usage_content :=
  | NoContent
  | Garbage
  | Parsed (j : usage_json).

(** [v += 1]: integers and booleans add as integers, floats as floats,
    anything else raises. *)
Definition add_one (v : usage_value) : exn + usage_value :=
  match v with
  | UInt n => inr (UInt (n + 1))
  | UBool b => inr (UInt (Z.b2z b + 1))
  | UFloat x => inr (UFloat (x + 1)%float)
  | UOther _ => inl TypeError
  end.

Definition track_api_usage_file (t : datetime) (file : usage_content)
    : exn + usage_content :=
  let today := isoformat (dt_date t) in
  (* Load existing usage *)
  let usage_data :=
    match file with
    | NoContent => JObject ∅
    | Garbage => JObject ∅
    | Parsed j => j
    end in
  match usage_data with
  | JNotObject => inl TypeError
  | JObject usage_data =>
      (* Update today's count *)
      let usage_data :=
        match usage_data !! today with
        | None => <[today := UInt 0]> usage_data
        | Some _ => usage_data
        end in
      match add_one (default (UInt 0) (usage_data !! today)) with
      | inl e => inl e
      | inr count =>
          let usage_data := <[today := count]> usage_data in
          (* Clean up old entries (keep last 7 days only) *)
          match timedelta_of 7 0 ≫= datetime_sub t with
          | None => inl OverflowError
          | Some cutoff =>
              let cutoff_date := isoformat (dt_date cutoff) in
              (* Save *)
              inr (Parsed (JObject
                     (filter (λ kv : string * usage_value,
                                String.leb cutoff_date kv.1 = true)
                             usage_data)))
          end
      end
  end.

(** The [get] of line 178 stands inside the [try]: what is no object has
    no [get], and reads as 0. *)
Definition get_api_usage_today_file (t : datetime) (file : usage_content)
    : usage_value :=
  match file with
  | Parsed (JObject usage_data) =>
      default (UInt 0) (usage_data !! isoformat (dt_date t))
  | Parsed JNotObject => UInt 0
  | Garbage => UInt 0
  | NoContent => UInt 0
  end.

Definition content_of (file : usage_store) : usage_content :=
  match file with
  | NoFile => NoContent
  | Unreadable => Garbage
  | Ledger m => Parsed (JObject (UInt <$> m))
  end.

(** ** The calendar and its renderings *)

Section CalendarFacts.
Local Open Scope Z_scope.

Lemma digit_compare (a b : Z) :
  0 <= a < 10 → 0 <= b < 10 → Ascii.compare (digit a) (digit b) = (a ?= b).
Proof.
  intros Ha Hb. unfold Ascii.compare, digit.
  rewrite !N_ascii_embedding by (rewrite !Z.mod_small by lia; lia).
  rewrite !Z.mod_small by lia.
  rewrite <- N2Z.inj_compare, !N2Z.inj_add, !Z2N.id by lia.
  apply Z.add_compare_mono_l.
Qed.

Lemma zpad_mod (w : nat) (n : Z) :
  0 <= n → zpad w (n mod 10 ^ Z.of_nat w) = zpad w n.
Proof.
  revert n. induction w as [|w IH]; intros n Hn; [done|].
  cbn [zpad]. f_equal.
  - unfold digit. do 2 f_equal.
    rewrite Nat2Z.inj_succ, Z.pow_succ_r by lia.
    f_equal.
    assert (0 < 10 ^ Z.of_nat w) by (apply Z.pow_pos_nonneg; lia).
    rewrite Z.mul_comm, Z.rem_mul_r by lia.
    rewrite Z.mul_comm, Z.div_add, Z.div_small by (try apply Z.mod_pos_bound; lia).
    rewrite Z.add_0_l. by rewrite Z.mod_mod by lia.
  - rewrite <- (IH (n mod _)), <- (IH n) by (try apply Z.mod_pos_bound; try apply Z.pow_pos_nonneg; lia).
    f_equal.
    rewrite Nat2Z.inj_succ, Z.pow_succ_r by lia.
    assert (0 < 10 ^ Z.of_nat w) by (apply Z.pow_pos_nonneg; lia).
    rewrite Z.mul_comm, Z.rem_mul_r by lia.
    rewrite Z.mul_comm, Z.mod_add by lia. by rewrite Z.mod_mod by lia.
Qed.

Lemma compare_cons (c c' : ascii) (s s' : string) :
  String.compare (String c s) (String c' s')
  = match Ascii.compare c c' with Eq => String.compare s s' | r => r end.
Proof. done. Qed.

Lemma append_cons (c : ascii) (s t : string) :
  String c s +:+ t = String c (s +:+ t).
Proof. done. Qed.

Lemma zpad_S (w : nat) (n : Z) :
  zpad (S w) n = String (digit (n / 10 ^ Z.of_nat w)) (zpad w n).
Proof. done. Qed.

Lemma zpad_compare (w : nat) (a b : Z) (s t : string) :
  0 <= a < 10 ^ Z.of_nat w → 0 <= b < 10 ^ Z.of_nat w →
  String.compare (zpad w a +:+ s) (zpad w b +:+ t)
  = match a ?= b with Eq => String.compare s t | c => c end.
Proof.
  revert a b. induction w as [|w IH]; intros a b Ha Hb.
  - change (10 ^ Z.of_nat 0) with 1 in *.
    assert (a = 0) as -> by lia. assert (b = 0) as -> by lia. done.
  - rewrite Nat2Z.inj_succ, Z.pow_succ_r in Ha, Hb by lia.
    assert (0 < 10 ^ Z.of_nat w) as Hp by (apply Z.pow_pos_nonneg; lia).
    set (p := 10 ^ Z.of_nat w) in *.
    rewrite !zpad_S. fold p. rewrite !append_cons, compare_cons.
    pose proof (Z.div_mod a p ltac:(lia)) as Ea.
    pose proof (Z.div_mod b p ltac:(lia)) as Eb.
    pose proof (Z.mod_pos_bound a p Hp) as Ra.
    pose proof (Z.mod_pos_bound b p Hp) as Rb.
    assert (0 <= a / p < 10) as Qa by (split; [apply Z.div_pos; lia | apply Z.div_lt_upper_bound; lia]).
    assert (0 <= b / p < 10) as Qb by (split; [apply Z.div_pos; lia | apply Z.div_lt_upper_bound; lia]).
    rewrite digit_compare by done.
    rewrite <- (zpad_mod w a), <- (zpad_mod w b) by lia. fold p.
    rewrite IH by done.
    destruct (Z.compare_spec (a / p) (b / p)) as [E|L|G].
    + rewrite E in Ea.
      destruct (Z.compare_spec (a mod p) (b mod p)) as [E'|L'|G'].
      * replace a with b by lia. by rewrite Z.compare_refl.
      * assert (a < b) as ->%Z.compare_lt_iff by lia. done.
      * assert (b < a) as ->%Z.compare_gt_iff by lia. done.
    + assert (a < b) as ->%Z.compare_lt_iff by nia. done.
    + assert (b < a) as ->%Z.compare_gt_iff by nia. done.
Qed.

Lemma days_in_month_bounds (y m : Z) : 28 <= days_in_month y m <= 31.
Proof. unfold days_in_month. repeat case_match; lia. Qed.

Lemma days_in_month_dec (y : Z) : days_in_month y 12 = 31.
Proof. done. Qed.

Lemma days_in_month_jan (y : Z) : days_in_month y 1 = 31.
Proof. done. Qed.

Lemma valid_date_spec (d : date) :
  valid_date d = true ↔ fields_ok d ∧ 1 <= year d <= 9999.
Proof. unfold valid_date, fields_ok, MINYEAR, MAXYEAR. rewrite !andb_true_iff, !Z.leb_le. lia. Qed.

Lemma prev_day_spec (d : date) :
  fields_ok d →
  fields_ok (prev_day d) ∧ rank d - 4 <= rank (prev_day d) < rank d
  ∧ year d - 1 <= year (prev_day d) <= year d.
Proof.
  unfold fields_ok, prev_day, rank. intros [Hm Hd].
  pose proof (days_in_month_bounds (year d) (month d - 1)).
  destruct (Z.ltb_spec 1 (day d)); [|destruct (Z.ltb_spec 1 (month d))];
    cbn [year month day]; rewrite ?days_in_month_dec; lia.
Qed.

Lemma next_day_spec (d : date) :
  fields_ok d →
  fields_ok (next_day d) ∧ rank d < rank (next_day d) <= rank d + 4
  ∧ year d <= year (next_day d) <= year d + 1.
Proof.
  unfold fields_ok, next_day, rank. intros [Hm Hd].
  pose proof (days_in_month_bounds (year d) (month d)).
  pose proof (days_in_month_bounds (year d) (month d + 1)).
  destruct (Z.ltb_spec (day d) (days_in_month (year d) (month d)));
    [|destruct (Z.ltb_spec (month d) 12)];
    cbn [year month day]; rewrite ?days_in_month_jan; lia.
Qed.

Lemma iter_prev_day_spec (p : positive) (d : date) :
  fields_ok d →
  fields_ok (Pos.iter prev_day d p)
  ∧ rank d - 4 * Z.pos p <= rank (Pos.iter prev_day d p) <= rank d - Z.pos p.
Proof.
  intros Hd. induction p as [|p IH] using Pos.peano_ind.
  - cbn [Pos.iter]. destruct (prev_day_spec d Hd) as (? & ? & ?). split; [done | lia].
  - rewrite Pos.iter_succ. destruct IH as [Hf Hr].
    destruct (prev_day_spec _ Hf) as (? & ? & ?). split; [done | lia].
Qed.

Lemma iter_next_day_spec (p : positive) (d : date) :
  fields_ok d →
  fields_ok (Pos.iter next_day d p)
  ∧ rank d + Z.pos p <= rank (Pos.iter next_day d p) <= rank d + 4 * Z.pos p.
Proof.
  intros Hd. induction p as [|p IH] using Pos.peano_ind.
  - cbn [Pos.iter]. destruct (next_day_spec d Hd) as (? & ? & ?). split; [done | lia].
  - rewrite Pos.iter_succ. destruct IH as [Hf Hr].
    destruct (next_day_spec _ Hf) as (? & ? & ?). split; [done | lia].
Qed.

(** Shifting keeps the fields in range and moves the rank the right way. *)
Lemma shift_days_spec (d : date) (n : Z) :
  fields_ok d →
  fields_ok (shift_days d n)
  ∧ (0 <= n → rank d + n <= rank (shift_days d n) <= rank d + 4 * n)
  ∧ (n <= 0 → rank d + 4 * n <= rank (shift_days d n) <= rank d + n).
Proof.
  intros Hd. destruct n as [|p|p]; cbn [shift_days].
  - split; [done | lia].
  - destruct (iter_next_day_spec p d Hd). split; [done | lia].
  - destruct (iter_prev_day_spec p d Hd). split; [done | lia].
Qed.

Lemma date_compare_rank (a b : date) :
  fields_ok a → fields_ok b → date_compare a b = (rank a ?= rank b).
Proof.
  unfold fields_ok, date_compare, rank. intros [Ha Ha'] [Hb Hb'].
  pose proof (days_in_month_bounds (year a) (month a)).
  pose proof (days_in_month_bounds (year b) (month b)).
  symmetry.
  destruct (Z.compare_spec (year a) (year b)) as [E|L|G].
  - destruct (Z.compare_spec (month a) (month b)) as [E'|L'|G'].
    + destruct (Z.compare_spec (day a) (day b)).
      * apply Z.compare_eq_iff; lia.
      * apply Z.compare_lt_iff; lia.
      * apply Z.compare_gt_iff; lia.
    + apply Z.compare_lt_iff; lia.
    + apply Z.compare_gt_iff; lia.
  - apply Z.compare_lt_iff; lia.
  - apply Z.compare_gt_iff; lia.
Qed.

Lemma date_compare_eq (a b : date) : date_compare a b = Eq → a = b.
Proof.
  unfold date_compare. destruct a as [y m d], b as [y' m' d']; cbn [year month day].
  destruct (Z.compare_spec y y'); try done.
  destruct (Z.compare_spec m m'); try done.
  intros ?%Z.compare_eq_iff. congruence.
Qed.

Lemma append_nil_r (s : string) : s +:+ "" = s.
Proof. induction s; [done|]. rewrite append_cons. by f_equal. Qed.

Lemma isoformat_unfold (d : date) :
  isoformat d
  = zpad 4 (year d)
    +:+ String "-" (zpad 2 (month d) +:+ String "-" (zpad 2 (day d) +:+ "")).
Proof. unfold isoformat. by rewrite append_nil_r. Qed.

(** ISO dates compare as strings the way the dates compare. *)
Lemma isoformat_compare (a b : date) :
  valid_date a = true → valid_date b = true →
  String.compare (isoformat a) (isoformat b) = date_compare a b.
Proof.
  intros [[Ham Had] Hay]%valid_date_spec [[Hbm Hbd] Hby]%valid_date_spec.
  pose proof (days_in_month_bounds (year a) (month a)).
  pose proof (days_in_month_bounds (year b) (month b)).
  rewrite !isoformat_unfold. unfold date_compare.
  rewrite zpad_compare by (change (10 ^ Z.of_nat 4) with 10000; lia).
  destruct (year a ?= year b); try done.
  rewrite compare_cons. change (Ascii.compare "-" "-") with Eq. cbv iota.
  rewrite zpad_compare by (change (10 ^ Z.of_nat 2) with 100; lia).
  destruct (month a ?= month b); try done.
  rewrite compare_cons. change (Ascii.compare "-" "-") with Eq. cbv iota.
  rewrite zpad_compare by (change (10 ^ Z.of_nat 2) with 100; lia).
  by destruct (day a ?= day b).
Qed.

Lemma isoformat_leb (a b : date) :
  valid_date a = true → valid_date b = true →
  String.leb (isoformat a) (isoformat b) = date_leb a b.
Proof. intros Ha Hb. unfold String.leb, date_leb. by rewrite isoformat_compare. Qed.

Lemma isoformat_inj (a b : date) :
  valid_date a = true → valid_date b = true → isoformat a = isoformat b → a = b.
Proof.
  intros Ha Hb E. apply date_compare_eq. rewrite <- isoformat_compare, E by done.
  clear. induction (isoformat b) as [|c s IH]; [done|].
  rewrite compare_cons. unfold Ascii.compare. by rewrite N.compare_refl.
Qed.

Lemma valid_datetime_spec (t : datetime) :
  valid_datetime t = true ↔
  valid_date (dt_date t) = true ∧ 0 <= hour t < 24 ∧ 0 <= minute t < 60
  ∧ 0 <= second t < 60 ∧ 0 <= microsecond t < 1000000.
Proof.
  unfold valid_datetime.
  rewrite !andb_true_iff, !Z.leb_le, !Z.ltb_lt. tauto.
Qed.

Lemma clock_ok_spec (t : datetime) :
  clock_ok t = true ↔ valid_datetime t = true ∧ 2 <= year (dt_date t) <= 9998.
Proof. unfold clock_ok. rewrite !andb_true_iff, !Z.leb_le. tauto. Qed.

(** A time of day, taken apart after a shift by whole days, is itself. *)
Lemma time_of_day_normal (h m s us : Z) :
  0 <= h < 24 → 0 <= m < 60 → 0 <= s < 60 → 0 <= us < 1000000 →
  let secs := h * 3600 + m * 60 + s + 0 + (us + 0) / 1000000 in
  secs / 86400 = 0 ∧ (secs mod 86400) / 3600 = h
  ∧ ((secs mod 86400) mod 3600) / 60 = m
  ∧ ((secs mod 86400) mod 3600) mod 60 = s
  ∧ (us + 0) mod 1000000 = us.
Proof.
  intros Hh Hm Hs Hus secs. subst secs.
  rewrite !Z.add_0_r, (Z.div_small us), !Z.add_0_r by lia.
  rewrite (Z.mod_small us), (Z.mod_small (_ + _) 86400), Z.div_small by lia.
  replace (h * 3600 + m * 60 + s) with ((m * 60 + s) + h * 3600) by lia.
  rewrite Z.div_add, Z.mod_add, (Z.div_small (_ + _) 3600), (Z.mod_small (_ + _) 3600) by lia.
  rewrite (Z.add_comm (m * 60)), Z.div_add, Z.mod_add, Z.div_small, Z.mod_small by lia.
  repeat split; lia.
Qed.

(** Adding whole days moves the date and keeps the time of day. *)
Lemma datetime_add_whole_days (t : datetime) (n : Z) :
  valid_datetime t = true →
  datetime_add t (TimeDelta n 0 0)
  = let d := shift_days (dt_date t) n in
    if (MINYEAR <=? year d) && (year d <=? MAXYEAR)
    then Some (DateTime d (hour t) (minute t) (second t) (microsecond t))
    else None.
Proof.
  intros (_ & Hh & Hm & Hs & Hus)%valid_datetime_spec.
  unfold datetime_add. cbn [td_days td_seconds td_microseconds].
  destruct (time_of_day_normal _ _ _ _ Hh Hm Hs Hus) as (-> & -> & -> & -> & ->).
  by rewrite Z.add_0_r.
Qed.

Lemma timedelta_of_days (n : Z) :
  -999999999 <= n <= 999999999 → timedelta_of n 0 = Some (TimeDelta n 0 0).
Proof.
  intros Hn. unfold timedelta_of, timedelta_ok. cbn [td_days].
  change (0 * 3600) with 0. change (0 / 86400) with 0. change (0 mod 86400) with 0.
  rewrite Z.add_0_r.
  destruct (Z.leb_spec (-999999999) n), (Z.leb_spec n 999999999); try lia; done.
Qed.

Lemma timedelta_neg_days (n : Z) :
  timedelta_neg (TimeDelta n 0 0) = TimeDelta (- n) 0 0.
Proof.
  unfold timedelta_neg. cbn [td_days td_seconds td_microseconds].
  change (- 0) with 0. change (0 / 1000000) with 0. change (0 + 0) with 0.
  change (0 / 86400) with 0. by rewrite Z.add_0_r.
Qed.

(** The start of the window, when there is one, is the date [days_back]
    calendar days back, at the same time of day. *)
Lemma window_start_Some (t : datetime) (days_back : Z) (start : datetime) :
  valid_datetime t = true → window_start t days_back = Some start →
  start = DateTime (shift_days (dt_date t) (- days_back))
                   (hour t) (minute t) (second t) (microsecond t).
Proof.
  intros Ht. unfold window_start, timedelta_of, timedelta_ok. cbn [td_days].
  change (0 * 3600) with 0. change (0 / 86400) with 0. change (0 mod 86400) with 0.
  rewrite Z.add_0_r. case_match; [|done]. cbn [mbind option_bind].
  unfold datetime_sub. rewrite timedelta_neg_days, datetime_add_whole_days by done.
  cbv zeta. case_match; congruence.
Qed.

(** A week before a date after year 1 is a date, and an earlier one. *)
Lemma week_before_date (d : date) :
  valid_date d = true → 2 <= year d →
  valid_date (shift_days d (-7)) = true
  ∧ date_ltb (shift_days d (-7)) d = true.
Proof.
  intros [Hf Hy]%valid_date_spec Hy2.
  destruct (shift_days_spec d (-7) Hf) as (Hf' & _ & Hr).
  specialize (Hr ltac:(lia)).
  generalize dependent (shift_days d (-7)). intros cutoff Hf' Hr.
  assert (1 <= year cutoff <= 9999) as Hyc.
  { destruct Hf as [? ?], Hf' as [? ?].
    pose proof (days_in_month_bounds (year d) (month d)).
    pose proof (days_in_month_bounds (year cutoff) (month cutoff)).
    unfold rank in Hr. lia. }
  split.
  - by apply valid_date_spec.
  - unfold date_ltb. rewrite date_compare_rank by done.
    assert (rank cutoff < rank d) as ->%Z.compare_lt_iff by lia. done.
Qed.

Lemma valid_date_year (d : date) :
  valid_date d = true → (MINYEAR <=? year d) && (year d <=? MAXYEAR) = true.
Proof.
  intros [_ Hy]%valid_date_spec. unfold MINYEAR, MAXYEAR.
  apply andb_true_iff. rewrite !Z.leb_le. lia.
Qed.

(** A week before a good clock reading. *)
Lemma week_before (t : datetime) :
  clock_ok t = true →
  timedelta_of 7 0 = Some (TimeDelta 7 0 0)
  ∧ datetime_sub t (TimeDelta 7 0 0)
    = Some (DateTime (shift_days (dt_date t) (-7))
                     (hour t) (minute t) (second t) (microsecond t)).
Proof.
  intros [Ht Hy]%clock_ok_spec.
  pose proof Ht as (Hd & _)%valid_datetime_spec.
  destruct (week_before_date _ Hd ltac:(lia)) as [Hv _].
  split; [apply (timedelta_of_days 7); lia|].
  unfold datetime_sub. rewrite timedelta_neg_days, datetime_add_whole_days by done.
  cbv zeta. change (Z.opp 7) with (-7). by rewrite valid_date_year.
Qed.

(** A day after a good clock reading. *)
Lemma day_after (t : datetime) :
  clock_ok t = true →
  timedelta_of 0 24 = Some (TimeDelta 1 0 0)
  ∧ datetime_add t (TimeDelta 1 0 0)
    = Some (DateTime (next_day (dt_date t)) (hour t) (minute t) (second t)
                     (microsecond t)).
Proof.
  intros [Ht Hy]%clock_ok_spec. split; [done|].
  pose proof Ht as (Hd & _)%valid_datetime_spec.
  apply valid_date_spec in Hd as [Hf Hy'].
  rewrite datetime_add_whole_days by done. cbv zeta.
  change (shift_days (dt_date t) 1) with (next_day (dt_date t)).
  destruct (next_day_spec _ Hf) as (_ & _ & Hn). unfold MINYEAR, MAXYEAR.
  destruct (Z.leb_spec 1 (year (next_day (dt_date t)))),
           (Z.leb_spec (year (next_day (dt_date t))) 9999); try lia; done.
Qed.

End CalendarFacts.

(** ** The deduplicator *)

Section Dedup.
Local Open Scope list_scope.
Implicit Types (a : article) (l : list article) (seen : gset string).

Lemma article_url_Some a u :
  article_url a = Some u ↔ a !! "url" = Some (JStr u) ∧ u ≠ "".
Proof.
  unfold article_url. destruct (a !! "url") as [[|s]|].
  - split; [done | by intros [? _]].
  - destruct (String.eqb_spec s "") as [->|Hs].
    + split; [done | by intros [[= <-] ?]].
    + split; [by intros [= ->] | by intros [[= ->] _]].
  - split; [done | by intros [? _]].
Qed.

(** The loop of the source, accumulators and all, is [dedup_from]. *)
Lemma dedup_loop_from l seen unique :
  dedup_loop l seen unique = unique ++ dedup_from seen l.
Proof.
  revert seen unique. induction l as [|a l IH]; intros seen unique; cbn [dedup_loop dedup_from].
  { by rewrite app_nil_r. }
  unfold article_url. destruct (a !! "url") as [[|u]|]; [done| |done].
  destruct (String.eqb_spec u "") as [->|Hu]; cbn [negb andb]; [done|].
  destruct (decide (u ∈ seen)) as [Hin|Hin].
  - rewrite bool_decide_false, (bool_decide_true (u ∈ seen)) by (done || naive_solver). done.
  - rewrite bool_decide_true, (bool_decide_false (u ∈ seen)) by done.
    by rewrite IH, <- app_assoc.
Qed.

Lemma deduplicate_articles_from l : deduplicate_articles l = dedup_from ∅ l.
Proof. unfold deduplicate_articles. by rewrite dedup_loop_from. Qed.

Lemma urls_of_snoc l a :
  urls_of (l ++ [a])
  = match article_url a with Some u => {[u]} ∪ urls_of l | None => urls_of l end.
Proof.
  unfold urls_of. rewrite omap_app, list_to_set_app_L.
  change (omap article_url [a])
    with (match article_url a with Some u => [u] | None => [] end).
  destruct (article_url a) as [u|]; cbn [list_to_set].
  - by rewrite (right_id_L ∅ (∪)), (comm_L (∪)).
  - by rewrite (right_id_L ∅ (∪)).
Qed.

Lemma first_with_url_here p a rest :
  first_with_url (p ++ a :: rest) (length p)
  = match article_url a with
    | Some u => bool_decide (u ∉ urls_of p)
    | None => false
    end.
Proof.
  unfold first_with_url. rewrite list_lookup_middle by done.
  destruct (article_url a) as [u|]; [|done].
  rewrite take_app_length.
  apply eq_true_iff_eq. rewrite forallb_forall, bool_decide_eq_true.
  unfold urls_of. rewrite elem_of_list_to_set, list_elem_of_omap. split.
  - intros H (b & Hb & Eb). apply list_elem_of_In, H in Hb.
    by rewrite bool_decide_true in Hb.
  - intros H b Hb%list_elem_of_In. apply negb_true_iff, bool_decide_eq_false.
    naive_solver.
Qed.

(** Run from the middle of the input, with the URLs of the part already
    read as the seen set, the loop keeps the positions the specification
    keeps. *)
Lemma dedup_from_positions p l :
  dedup_from (urls_of p) l
  = omap (λ i, if first_with_url (p ++ l) i then (p ++ l) !! i else None)
         (seq (length p) (length l)).
Proof.
  revert p. induction l as [|a l IH]; intros p; [done|].
  cbn [dedup_from length seq].
  change (omap ?f (?x :: ?k))
    with (match f x with Some y => y :: omap f k | None => omap f k end).
  cbv beta. rewrite first_with_url_here, list_lookup_middle by done.
  specialize (IH (p ++ [a])).
  rewrite <- app_assoc, length_app, Nat.add_1_r, urls_of_snoc in IH. cbn [app] in IH.
  destruct (article_url a) as [u|]; [|done].
  destruct (decide (u ∈ urls_of p)) as [Hin|Hin].
  - rewrite (bool_decide_true (u ∈ _)), bool_decide_false by (done || naive_solver).
    rewrite <- IH. f_equal. set_solver.
  - rewrite (bool_decide_false (u ∈ _)), bool_decide_true by done.
    by rewrite <- IH.
Qed.

(** What the loop keeps has URLs, new ones, and each once. *)
Lemma dedup_from_urls seen l :
  Forall (λ a, ∃ u, article_url a = Some u ∧ u ∉ seen) (dedup_from seen l)
  ∧ NoDup (article_url <$> dedup_from seen l).
Proof.
  revert seen. induction l as [|a l IH]; intros seen; cbn [dedup_from].
  { split; [constructor | constructor]. }
  destruct (article_url a) as [u|] eqn:Ea; [|done].
  case_bool_decide as Hin; [done|].
  destruct (IH ({[u]} ∪ seen)) as [Hall Hnd]. split.
  - constructor; [eauto|]. eapply Forall_impl; [exact Hall|].
    intros b (v & ? & ?). exists v. set_solver.
  - cbn [fmap list_fmap]. constructor; [|done].
    rewrite Ea. intros (b & Eb & Hb)%list_elem_of_fmap.
    rewrite Forall_forall in Hall. destruct (Hall b Hb) as (v & Ev & Hv).
    rewrite Ev in Eb. set_solver.
Qed.

Lemma dedup_from_sublist seen l : sublist (dedup_from seen l) l.
Proof.
  revert seen. induction l as [|a l IH]; intros seen; cbn [dedup_from]; [done|].
  destruct (article_url a); [case_bool_decide|]; by constructor.
Qed.

(** A list whose articles have URLs, new ones, each once, is left alone. *)
Lemma dedup_from_fixed seen l :
  Forall (λ a, ∃ u, article_url a = Some u ∧ u ∉ seen) l →
  NoDup (article_url <$> l) →
  dedup_from seen l = l.
Proof.
  revert seen. induction l as [|a l IH]; intros seen Hall Hnd; [done|].
  apply Forall_cons in Hall as [(u & Eu & Hu) Hall].
  cbn [fmap list_fmap] in Hnd. apply NoDup_cons in Hnd as [Hfresh Hnd].
  cbn [dedup_from]. rewrite Eu, bool_decide_false by done. f_equal.
  apply IH; [|done].
  rewrite Forall_forall in Hall |- *. intros b Hb.
  destruct (Hall b Hb) as (v & Ev & Hv). exists v. split; [done|].
  assert (v ≠ u); [|set_solver].
  intros ->. apply Hfresh. rewrite Eu, <- Ev. apply list_elem_of_fmap. eauto.
Qed.

End Dedup.

(** ** The usage ledger *)

Section Usage.
Context {world : Type} (clock : world → datetime).
Implicit Types (s : state (world := world)) (m : gmap string Z).

(** The two-step update of the source is one insertion. *)
Lemma count_today today m :
  alter (λ n, n + 1)%Z today
        (match m !! today with None => <[today := 0%Z]> m | Some _ => m end)
  = counted today m.
Proof.
  unfold counted. apply map_eq. intros k.
  destruct (decide (k = today)) as [->|Hk].
  - rewrite lookup_alter_eq, lookup_insert_eq.
    destruct (m !! today) as [n|] eqn:E; [by rewrite E|].
    by rewrite lookup_insert_eq.
  - rewrite lookup_alter_ne, lookup_insert_ne by done.
    destruct (m !! today); [done|]. by rewrite lookup_insert_ne.
Qed.

(** On a good clock reading [track_api_usage] returns, and writes the
    counted and pruned ledger; nothing else changes. *)
Lemma track_api_usage_run s :
  clock_ok (clock (net s)) = true →
  track_api_usage clock s
  = (inr tt, State (net s) (Ledger (tracked (clock (net s)) (usage_file s)))
                   (data_files s) (sent s) (stdout s)).
Proof.
  intros Hc. destruct (week_before _ Hc) as [Hw Hs].
  unfold track_api_usage, mbind, M_bind, now, read_usage, write_usage.
  rewrite Hw. cbn [or_overflow mret M_ret]. rewrite Hs. cbn [or_overflow mret M_ret dt_date].
  rewrite count_today. unfold tracked, pruned, ledger_of.
  by destruct (usage_file s).
Qed.

(** Whatever the clock, [track_api_usage] touches only the usage file, and
    that only when it returns. *)
Lemma track_api_usage_frame s res s' :
  track_api_usage clock s = (res, s') →
  net s' = net s ∧ data_files s' = data_files s ∧ sent s' = sent s
  ∧ stdout s' = stdout s
  ∧ match res with inl _ => usage_file s' = usage_file s | inr _ => True end.
Proof.
  unfold track_api_usage, mbind, M_bind, now, read_usage, write_usage.
  destruct (timedelta_of 7 0) as [week|]; cbn [or_overflow mret M_ret raise];
    [|by intros [= <- <-]].
  destruct (datetime_sub _ week) as [cutoff|]; cbn [or_overflow mret M_ret raise];
    by intros [= <- <-].
Qed.

Lemma tracked_lookup t file k :
  tracked t file !! k
  = if String.leb (isoformat (shift_days (dt_date t) (-7))) k
    then counted (isoformat (dt_date t)) (ledger_of file) !! k
    else None.
Proof.
  unfold tracked, pruned. set (m := counted _ _).
  destruct (String.leb _ k) eqn:E.
  - destruct (m !! k) as [v|] eqn:Ek.
    + by apply map_lookup_filter_Some.
    + apply map_lookup_filter_None. left. done.
  - apply map_lookup_filter_None. right. intros v _. cbn [fst]. by rewrite E.
Qed.

(** Today's bucket is one more than it was, and survives the pruning. *)
Lemma tracked_today t file :
  clock_ok t = true →
  tracked t file !! isoformat (dt_date t)
  = Some (default 0 (ledger_of file !! isoformat (dt_date t)) + 1)%Z.
Proof.
  intros [(Hd & _)%valid_datetime_spec [Hy _]]%clock_ok_spec.
  destruct (week_before_date _ Hd Hy) as [Hv Hlt].
  rewrite tracked_lookup.
  generalize dependent (shift_days (dt_date t) (-7)). intros cutoff Hv Hlt.
  rewrite isoformat_leb by done.
  unfold date_leb. unfold date_ltb in Hlt.
  destruct (date_compare cutoff (dt_date t)); try done.
  unfold counted. by rewrite lookup_insert_eq.
Qed.

(** The bucket of any other date is dropped when the date is before the
    cutoff, and kept as it was otherwise. *)
Lemma tracked_other_date t file d :
  clock_ok t = true → valid_date d = true → d ≠ dt_date t →
  tracked t file !! isoformat d
  = if date_ltb d (shift_days (dt_date t) (-7)) then None
    else ledger_of file !! isoformat d.
Proof.
  intros [(Hd & _)%valid_datetime_spec [Hy _]]%clock_ok_spec Hvd Hne.
  destruct (week_before_date _ Hd Hy) as [Hv _].
  rewrite tracked_lookup.
  generalize dependent (shift_days (dt_date t) (-7)). intros cutoff Hv.
  rewrite isoformat_leb by done.
  assert (date_leb cutoff d = negb (date_ltb d cutoff)) as ->.
  { unfold date_leb, date_ltb.
    rewrite !date_compare_rank by (by apply valid_date_spec).
    rewrite (Z.compare_antisym (rank d)). by destruct (rank d ?= rank cutoff)%Z. }
  destruct (date_ltb d cutoff); [done|]. cbn [negb].
  unfold counted. rewrite lookup_insert_ne; [done|].
  intros E. apply Hne. symmetry. by apply isoformat_inj.
Qed.

(** Started from nothing, the ledger is today's single bucket. *)
Lemma tracked_empty t file :
  clock_ok t = true → ledger_of file = ∅ →
  tracked t file = {[ isoformat (dt_date t) := 1%Z ]}.
Proof.
  intros Hc He. apply map_eq. intros k.
  destruct (decide (k = isoformat (dt_date t))) as [->|Hk].
  - by rewrite tracked_today, He, lookup_empty, lookup_singleton_eq.
  - rewrite tracked_lookup, lookup_singleton_ne by done.
    unfold counted. rewrite lookup_insert_ne, He, lookup_empty by done.
    by destruct (String.leb _ _).
Qed.

End Usage.

(** ** The two fetchers *)

Section Fetch.
Local Open Scope list_scope.
Context {world : Type} (clock : world → datetime).
Context (get_everything : request → world → (exn + response) * world).
Implicit Types (s : state (world := world)) (acc : list article).

(** Once the window is computed, [fetch_news_by_query] is its guarded call. *)
Lemma fetch_news_by_query_window query days_back sort_by s start :
  window_start (clock (net s)) days_back = Some start →
  fetch_news_by_query clock get_everything query days_back sort_by s
  = try_except
      (response ← call_get_everything get_everything
         (Request query (isoformat (dt_date start))
                  (isoformat (dt_date (clock (net s)))) sort_by "en"
                  (Some journal_domains));
       track_api_usage clock;;
       mret (Some response))
      (λ e, print (ErrorFetching e);; mret None) s.
Proof.
  unfold window_start, fetch_news_by_query. intros Hw.
  unfold mbind at 1, M_bind at 1, now at 1. cbv beta iota.
  unfold mbind at 1, M_bind at 1.
  destruct (timedelta_of days_back 0) as [back|]; [|done].
  cbn [mbind option_bind] in Hw. cbn [or_overflow mret M_ret]. cbv beta iota.
  unfold mbind at 1, M_bind at 1. rewrite Hw. cbn [or_overflow mret M_ret]. done.
Qed.

(** Without a window the function raises before it calls anything. *)
Lemma fetch_news_by_query_overflow query days_back sort_by s :
  window_start (clock (net s)) days_back = None →
  fetch_news_by_query clock get_everything query days_back sort_by s
  = (inl OverflowError, s).
Proof.
  unfold window_start, fetch_news_by_query. intros Hw.
  unfold mbind at 1, M_bind at 1, now at 1. cbv beta iota.
  unfold mbind at 1, M_bind at 1.
  destruct (timedelta_of days_back 0) as [back|]; [|done].
  cbn [mbind option_bind] in Hw. cbn [or_overflow mret M_ret]. cbv beta iota.
  unfold mbind at 1, M_bind at 1. rewrite Hw. done.
Qed.

(** A call the client raises on: [None] is returned, the error is printed,
    and the usage file is as it was. *)
Lemma fetch_news_by_query_raised query days_back sort_by s start e w' :
  window_start (clock (net s)) days_back = Some start →
  let req := Request query (isoformat (dt_date start))
               (isoformat (dt_date (clock (net s)))) sort_by "en"
               (Some journal_domains) in
  get_everything req (net s) = (inl e, w') →
  fetch_news_by_query clock get_everything query days_back sort_by s
  = (inr None, State w' (usage_file s) (data_files s) (sent s ++ [req])
                     (stdout s ++ [ErrorFetching e])).
Proof.
  intros Hw req Hg. rewrite (fetch_news_by_query_window _ _ _ _ _ Hw). fold req.
  unfold try_except, mbind, M_bind, call_get_everything. by rewrite Hg.
Qed.

(** A call the client answers: the response is returned and the call is
    counted. *)
Lemma fetch_news_by_query_returned query days_back sort_by s start r w' :
  window_start (clock (net s)) days_back = Some start →
  let req := Request query (isoformat (dt_date start))
               (isoformat (dt_date (clock (net s)))) sort_by "en"
               (Some journal_domains) in
  get_everything req (net s) = (inr r, w') →
  clock_ok (clock w') = true →
  fetch_news_by_query clock get_everything query days_back sort_by s
  = (inr (Some r),
     State w' (Ledger (tracked (clock w') (usage_file s))) (data_files s)
           (sent s ++ [req]) (stdout s)).
Proof.
  intros Hw req Hg Hc. rewrite (fetch_news_by_query_window _ _ _ _ _ Hw). fold req.
  unfold try_except, mbind, M_bind, call_get_everything. rewrite Hg.
  by rewrite track_api_usage_run.
Qed.

(** *** One turn of the loop *)

Lemma trigger_step_raised from_date to_date sort_by acc name query s e w' :
  get_everything (trigger_request from_date to_date sort_by query) (net s)
  = (inl e, w') →
  trigger_step clock get_everything from_date to_date sort_by acc (name, query) s
  = (inr acc,
     State w' (usage_file s) (data_files s)
           (sent s ++ [trigger_request from_date to_date sort_by query])
           (stdout s ++ [ErrorFetchingFor query e])).
Proof.
  intros Hg. unfold trigger_step, try_except, mbind, M_bind, call_get_everything.
  unfold trigger_request in Hg. by rewrite Hg.
Qed.

Lemma trigger_step_found from_date to_date sort_by acc name query s r w' a l :
  get_everything (trigger_request from_date to_date sort_by query) (net s)
  = (inr r, w') →
  clock_ok (clock w') = true →
  r !! "status" = Some (RStr "ok") →
  r !! "articles" = Some (RList (a :: l)) →
  trigger_step clock get_everything from_date to_date sort_by acc (name, query) s
  = (inr (acc ++ (tagged name <$> a :: l)),
     State w' (Ledger (tracked (clock w') (usage_file s))) (data_files s)
           (sent s ++ [trigger_request from_date to_date sort_by query])
           (stdout s ++ [Found (length (a :: l)) query])).
Proof.
  intros Hg Hc Hst Har.
  unfold trigger_step, try_except, mbind, M_bind, call_get_everything.
  unfold trigger_request in Hg. rewrite Hg, track_api_usage_run by done.
  rewrite Hst, Har, bool_decide_true by done.
  cbn [rtruthy andb tag_articles mret M_ret print]. by rewrite length_fmap.
Qed.

(** A turn returns whatever happens in it, having made its request; the
    clock and the ledger play no part in that. *)
Lemma trigger_step_returns from_date to_date sort_by acc entry s :
  ∃ acc' s',
    trigger_step clock get_everything from_date to_date sort_by acc entry s
    = (inr acc', s')
    ∧ sent s' = sent s ++ [trigger_request from_date to_date sort_by entry.2].
Proof.
  destruct entry as [name query].
  unfold trigger_step, try_except, mbind at 1, M_bind at 1, call_get_everything.
  unfold trigger_request. cbn [snd].
  destruct (get_everything _ (net s)) as [[e|r] w'].
  { by eexists _, _. }
  unfold mbind at 1, M_bind at 1.
  match goal with |- context [track_api_usage clock ?s1] =>
    destruct (track_api_usage clock s1) as [[e|[]] s2] eqn:Et;
    apply track_api_usage_frame in Et as (_ & _ & Hsent & _) end;
    cbn [sent] in Hsent.
  { eexists _, _. split; [done|]. cbn [print mbind M_bind mret M_ret sent]. done. }
  destruct (bool_decide _ && rtruthy _).
  - unfold tag_articles. destruct (r !! "articles") as [[| | |l]|];
      eexists _, _; (split; [reflexivity|]); by cbn.
  - by eexists _, _.
Qed.

(** The loop returns, having made one request per entry, in order. *)
Lemma for_each_trigger_step_returns from_date to_date sort_by queries acc s :
  ∃ all s',
    for_each (trigger_step clock get_everything from_date to_date sort_by)
             acc queries s
    = (inr all, s')
    ∧ sent s' = sent s ++ (trigger_request from_date to_date sort_by <$> queries.*2).
Proof.
  revert acc s. induction queries as [|entry queries IH]; intros acc s.
  - eexists _, _. split; [done|]. by rewrite app_nil_r.
  - destruct (trigger_step_returns from_date to_date sort_by acc entry s)
      as (acc' & s1 & E1 & Hs1).
    destruct (IH acc' s1) as (all & s' & E & Hs').
    exists all, s'. split.
    + cbn [for_each]. unfold mbind, M_bind. by rewrite E1.
    + rewrite Hs', Hs1, <- app_assoc. done.
Qed.

End Fetch.

(** ** The batch *)

Section Batch.
Local Open Scope list_scope.
Context {world : Type} (clock : world → datetime).
Context (get_everything : request → world → (exn + response) * world).
Implicit Types (s : state (world := world)).

(** Assigning under a key the dict does not have appends the item. *)
Lemma dict_set_fresh {V} (d : list (string * V)) k v :
  k ∉ d.*1 → dict_set d k v = d ++ [(k, v)].
Proof.
  induction d as [|[k' v'] d IH]; intros Hk; [done|].
  cbn [fmap list_fmap fst] in Hk. apply not_elem_of_cons in Hk as [Hne Hk].
  cbn [dict_set]. destruct (String.eqb_spec k' k) as [->|_]; [done|].
  by rewrite IH.
Qed.

Lemma fill_fresh {V} (f : string → V) (acc : list (string * string))
    (d : list (string * V)) :
  NoDup (d.*1 ++ acc.*1) →
  foldl (λ d '(name, query), dict_set d name (f query)) d acc
  = d ++ ((λ '(name, query), (name, f query)) <$> acc).
Proof.
  revert d. induction acc as [|[name query] acc IH]; intros d Hnd.
  { by rewrite app_nil_r. }
  cbn [foldl fmap list_fmap fst] in *.
  pose proof Hnd as (_ & Hdis & _)%NoDup_app.
  rewrite dict_set_fresh by (intros Hin; apply (Hdis _ Hin); left).
  rewrite IH, <- app_assoc; [done|].
  by rewrite fmap_app, <- app_assoc.
Qed.

(** With a region, the queries of a catalog (a dict: no key twice) are the
    catalog's, each rewritten, under the same labels and in the same order. *)
Lemma queries_with_region_rewritten catalog r :
  NoDup catalog.*1 → r ≠ "" →
  queries_with_region catalog (Some r)
  = (λ '(name, query), (name, with_region query r)) <$> catalog.
Proof.
  intros Hnd Hr. unfold queries_with_region, str_truthy.
  destruct (String.eqb_spec r ""); [done|]. cbn [negb].
  by rewrite (fill_fresh (λ query, with_region query r)).
Qed.

(** Once the window is computed, [fetch_sales_triggers] is its loop and the
    wrapping of what the loop gathered. *)
Lemma fetch_sales_triggers_window trigger_queries days_back sort_by region s start :
  window_start (clock (net s)) days_back = Some start →
  fetch_sales_triggers clock get_everything trigger_queries days_back sort_by region s
  = (all_articles ←
       for_each (trigger_step clock get_everything (isoformat (dt_date start))
                   (isoformat (dt_date (clock (net s)))) sort_by) []
         (queries_with_region (default DEFAULT_TRIGGERS trigger_queries) region);
     mret (batch_result all_articles)) s.
Proof.
  unfold window_start, fetch_sales_triggers. intros Hw. cbv zeta.
  unfold mbind at 1, M_bind at 1, now at 1. cbv beta iota.
  unfold mbind at 1, M_bind at 1.
  destruct (timedelta_of days_back 0) as [back|]; [|done].
  cbn [mbind option_bind] in Hw. cbn [or_overflow mret M_ret]. cbv beta iota.
  unfold mbind at 1, M_bind at 1. rewrite Hw. cbn [or_overflow mret M_ret]. done.
Qed.

(** The batch returns, whatever the client does, having made one request
    per query. *)
Lemma fetch_sales_triggers_returns trigger_queries days_back sort_by region s start :
  window_start (clock (net s)) days_back = Some start →
  ∃ all s',
    fetch_sales_triggers clock get_everything trigger_queries days_back sort_by region s
    = (inr (batch_result all), s')
    ∧ sent s'
      = sent s
        ++ (trigger_request (isoformat (dt_date start))
              (isoformat (dt_date (clock (net s)))) sort_by
            <$> (queries_with_region (default DEFAULT_TRIGGERS trigger_queries) region).*2).
Proof.
  intros Hw. rewrite (fetch_sales_triggers_window _ _ _ _ _ _ Hw).
  destruct (for_each_trigger_step_returns clock get_everything
              (isoformat (dt_date start)) (isoformat (dt_date (clock (net s))))
              sort_by
              (queries_with_region (default DEFAULT_TRIGGERS trigger_queries) region)
              [] s) as (all & s' & E & Hs).
  exists all, s'. split; [|done]. unfold mbind, M_bind. by rewrite E.
Qed.

End Batch.

(** ** Properties of the deduplicator *)

Section DedupProperties.
Local Open Scope list_scope.

(** The kept positions, in plain terms: the article there has a URL that is
    not empty, and no article before it has that URL. *)
Lemma first_with_url_spec (l : list article) (i : nat) (a : article) :
  l !! i = Some a →
  first_with_url l i = true
  ↔ ∃ u, a !! "url" = Some (JStr u) ∧ u ≠ ""
         ∧ ∀ j b, (j < i)%nat → l !! j = Some b → b !! "url" ≠ Some (JStr u).
Proof.
  intros Hi. unfold first_with_url. rewrite Hi.
  destruct (article_url a) as [u|] eqn:Ea.
  - apply article_url_Some in Ea as [Ea Hu]. rewrite forallb_forall. split.
    + intros H. exists u. split; [done|]. split; [done|].
      intros j b Hj Hb Eb.
      assert (In b (take i l)) as Hin.
      { apply list_elem_of_In, list_elem_of_lookup. exists j.
        by rewrite lookup_take_lt. }
      apply H, negb_true_iff, bool_decide_eq_false in Hin. apply Hin.
      by apply article_url_Some.
    + intros (v & Ev & _ & H) b Hb%list_elem_of_In.
      assert (v = u) as -> by congruence.
      apply negb_true_iff, bool_decide_eq_false.
      intros [Eb _]%article_url_Some.
      apply list_elem_of_lookup in Hb as [j Hj].
      apply lookup_take_Some in Hj as [Hj Hlt]. by apply (H j b).
  - split; [done|]. intros (u & Eu & Hu & _).
    assert (article_url a = Some u) by (by apply article_url_Some). congruence.
Qed.

(** C4: for every input, [deduplicate_articles] returns the stable
    left-to-right filter that keeps an article exactly when its URL is
    present and not empty and no earlier article has the same URL; so the
    output is the input restricted to the kept positions, in input order,
    every kept article has a URL that is not empty, and no two kept articles
    share a URL. *)
Theorem C4_dedupe_is_the_stable_first_occurrence_filter (l : list article) :
  deduplicate_articles l = stable_first_filter l
  ∧ (∀ i a, l !! i = Some a →
       first_with_url l i = true
       ↔ ∃ u, a !! "url" = Some (JStr u) ∧ u ≠ ""
              ∧ ∀ j b, (j < i)%nat → l !! j = Some b → b !! "url" ≠ Some (JStr u))
  ∧ deduplicate_articles l `sublist_of` l
  ∧ Forall (λ a, ∃ u, a !! "url" = Some (JStr u) ∧ u ≠ "") (deduplicate_articles l)
  ∧ (∀ i j a b,
       deduplicate_articles l !! i = Some a →
       deduplicate_articles l !! j = Some b →
       a !! "url" = b !! "url" → i = j).
Proof.
  rewrite deduplicate_articles_from.
  destruct (dedup_from_urls ∅ l) as [Hall Hnd].
  split; [|split; [|split; [|split]]].
  - change ∅ with (urls_of []). by rewrite (dedup_from_positions [] l).
  - apply first_with_url_spec.
  - apply dedup_from_sublist.
  - eapply Forall_impl; [exact Hall|]. intros a (u & Eu%article_url_Some & _). eauto.
  - intros i j a b Hi Hj E.
    rewrite Forall_forall in Hall.
    destruct (Hall a) as (u & Eu & _); [by eapply list_elem_of_lookup_2|].
    assert (article_url b = Some u) as Eb.
    { apply article_url_Some in Eu as [Eu Hu]. apply article_url_Some.
      by rewrite <- E. }
    eapply NoDup_lookup; [exact Hnd| |].
    + by rewrite list_lookup_fmap, Hi.
    + rewrite list_lookup_fmap, Hj. cbn. congruence.
Qed.

(** C5: deduplicating twice is deduplicating once. *)
Theorem C5_dedupe_is_idempotent (l : list article) :
  deduplicate_articles (deduplicate_articles l) = deduplicate_articles l.
Proof.
  rewrite !deduplicate_articles_from.
  destruct (dedup_from_urls ∅ l) as [Hall Hnd].
  by apply dedup_from_fixed.
Qed.

End DedupProperties.

(** ** Properties of the usage tracker *)

(** The program's own stores are files on disk, and on them
    [track_api_usage] is [track_api_usage_file]: it raises when and what the
    other raises, and writes the file the other writes. *)
Lemma count_on_disk (today : string) (m : gmap string Z) :
  let on_disk : gmap string usage_value := UInt <$> m in
  let with_today :=
    match on_disk !! today with
    | None => <[today := UInt 0]> on_disk
    | Some _ => on_disk
    end in
  add_one (default (UInt 0) (with_today !! today))
  = inr (UInt (default 0%Z (m !! today) + 1))
  ∧ <[today := UInt (default 0%Z (m !! today) + 1)]> with_today
    = UInt <$> counted today m.
Proof.
  cbv zeta. unfold counted. rewrite lookup_fmap.
  destruct (m !! today) as [n|] eqn:E; cbn [fmap option_fmap option_map default].
  - rewrite lookup_fmap, E. split; [done|]. by rewrite fmap_insert.
  - rewrite lookup_insert_eq. split; [done|].
    by rewrite insert_insert_eq, fmap_insert.
Qed.

Lemma track_api_usage_on_disk {world : Type} (clock : world → datetime)
    (s : state (world := world)) :
  match track_api_usage clock s with
  | (inr _, s') =>
      track_api_usage_file (clock (net s)) (content_of (usage_file s))
      = inr (content_of (usage_file s'))
  | (inl e, _) =>
      track_api_usage_file (clock (net s)) (content_of (usage_file s)) = inl e
  end.
Proof.
  assert (track_api_usage_file (clock (net s)) (content_of (usage_file s))
          = match timedelta_of 7 0 ≫= datetime_sub (clock (net s)) with
            | None => inl OverflowError
            | Some cutoff =>
                inr (content_of
                       (Ledger (pruned (isoformat (dt_date cutoff))
                                  (counted (isoformat (dt_date (clock (net s))))
                                     (ledger_of (usage_file s))))))
            end) as ->.
  { unfold track_api_usage_file. cbv zeta.
    set (today := isoformat (dt_date (clock (net s)))).
    destruct (count_on_disk today (ledger_of (usage_file s))) as [Ha Hm].
    cbv zeta in Ha, Hm.
    assert (match content_of (usage_file s) with
            | NoContent | Garbage => JObject ∅
            | Parsed j => j
            end = JObject (UInt <$> ledger_of (usage_file s))) as ->.
    { destruct (usage_file s); cbn [content_of ledger_of]; by rewrite ?fmap_empty. }
    rewrite Ha, Hm.
    destruct (timedelta_of 7 0 ≫= datetime_sub (clock (net s))) as [cutoff|]; [|done].
    cbn [content_of]. unfold pruned. by rewrite map_filter_fmap. }
  unfold track_api_usage, mbind at 1 2 3 4 5, M_bind, now, read_usage, write_usage.
  rewrite count_today.
  destruct (timedelta_of 7 0) as [week|]; cbn [or_overflow mret M_ret raise mbind option_bind];
    [|done].
  destruct (datetime_sub _ week) as [cutoff|]; cbn [or_overflow mret M_ret raise];
    [|done].
  cbn [usage_file]. unfold pruned, ledger_of. by destruct (usage_file s).
Qed.

(** C6 (where the code falls short of it): a usage file that loads as JSON
    but is no ledger is not treated as an empty mapping.  When it holds no
    object, or holds under today's date something that is no number,
    [track_api_usage] raises [TypeError] at the update, before anything is
    written, whatever the clock reads; a file that does not load is taken as
    the empty object, as the claim has it, and [get_api_usage_today], whose
    [try] spans the reading too, takes the file that holds no object for
    empty as well. *)
Theorem C6_a_store_that_is_no_ledger_is_not_taken_as_empty (t : datetime) :
  track_api_usage_file t (Parsed JNotObject) = inl TypeError
  ∧ (∀ m text,
       track_api_usage_file t
         (Parsed (JObject (<[isoformat (dt_date t) := UOther text]> m)))
       = inl TypeError)
  ∧ track_api_usage_file t Garbage = track_api_usage_file t (Parsed (JObject ∅))
  ∧ track_api_usage_file t NoContent = track_api_usage_file t (Parsed (JObject ∅))
  ∧ get_api_usage_today_file t (Parsed JNotObject)
    = get_api_usage_today_file t (Parsed (JObject ∅)).
Proof.
  split; [done|]. split; [|done].
  intros m text. unfold track_api_usage_file. cbv zeta.
  by rewrite !lookup_insert_eq.
Qed.

(** X19: on a good clock reading, and with a usage file that is missing,
    does not load, or holds a ledger of integer counts (what the program
    itself writes), [track_api_usage] returns and leaves in the usage file a
    ledger in which today's bucket is one more than before (1
    when there was none), the bucket of every other date strictly before
    today minus seven days is gone, the bucket of every other date from that
    cutoff on is as it was, and no key below the cutoff is left; a missing or
    unreadable file counts as the empty ledger, so that one call on an empty
    store leaves exactly today's bucket at 1.  Nothing else changes, and
    the file on disk is that ledger. *)
Theorem X19_record_call_postcondition {world : Type} (clock : world → datetime)
    (s : state (world := world)) :
  clock_ok (clock (net s)) = true →
  let today := dt_date (clock (net s)) in
  let cutoff := shift_days today (-7) in
  let before :=
    match usage_file s with
    | Ledger m => m
    | NoFile | Unreadable => ∅
    end in
  ∃ after : gmap string Z,
    track_api_usage clock s
    = (inr tt, State (net s) (Ledger after) (data_files s) (sent s) (stdout s))
    ∧ after !! isoformat today
      = Some (default 0 (before !! isoformat today) + 1)%Z
    ∧ (∀ d, valid_date d = true → d ≠ today →
         after !! isoformat d
         = if date_ltb d cutoff then None else before !! isoformat d)
    ∧ (∀ k, is_Some (after !! k) → String.leb (isoformat cutoff) k = true)
    ∧ (before = ∅ → after = {[ isoformat today := 1%Z ]})
    ∧ track_api_usage_file (clock (net s)) (content_of (usage_file s))
      = inr (Parsed (JObject (UInt <$> after))).
Proof.
  intros Hc today cutoff before.
  exists (tracked (clock (net s)) (usage_file s)).
  assert (before = ledger_of (usage_file s)) as Hb by (by destruct (usage_file s)).
  split; [by apply track_api_usage_run|].
  split; [rewrite Hb; by apply tracked_today|].
  split; [intros d Hd Hne; rewrite Hb; by apply tracked_other_date|].
  split.
  - intros k [v Hk]. rewrite tracked_lookup in Hk. fold today cutoff in Hk.
    by destruct (String.leb (isoformat cutoff) k).
  - split.
    + intros He. apply tracked_empty; [done | by rewrite <- Hb].
    + pose proof (track_api_usage_on_disk clock s) as Hdisk.
      by rewrite track_api_usage_run in Hdisk by done.
Qed.

(** X19 at the sample state: of the buckets of 3 November, 27 October and 26
    October, a call on 3 November raises the first from 5 to 6, keeps the
    second (the cutoff day itself) and drops the third. *)
Lemma X19_record_call_postcondition_witness :
  clock_ok (sample_clock (net sample_state)) = true
  ∧ ∃ after : gmap string Z,
      track_api_usage sample_clock sample_state
      = (inr tt, State 0%nat (Ledger after) ∅ [] [])
      ∧ after !! "2026-11-03" = Some 6%Z
      ∧ after !! "2026-10-27" = Some 3%Z
      ∧ after !! "2026-10-26" = None.
Proof.
  split; [reflexivity|].
  destruct (X19_record_call_postcondition sample_clock sample_state eq_refl)
    as (after & Hrun & Htoday & Hother & _).
  exists after. split; [exact Hrun|]. split; [exact Htoday|]. split.
  - exact (Hother (Date 2026 10 27) eq_refl ltac:(discriminate)).
  - exact (Hother (Date 2026 10 26) eq_refl ltac:(discriminate)).
Defined.

(** ** Properties of the persister *)

(** C9: given nothing, or an empty dict, [save_news_to_file] returns [None]
    and changes nothing; given anything else, on a good clock reading, it
    writes under the data directory a document that wraps the status, the
    total and the articles of the result with metadata, the time now as
    [fetched_at], the same time of day on the next calendar day as
    [expires_at], the query parameters given (none: the empty dict) as
    [query_params], and returns the path written. *)
Theorem C9_save_wraps_result_with_metadata {world : Type}
    (clock : world → datetime) (base_dir : string)
    (news_data : option response) (filename : string)
    (query_params : option (gmap string rval)) (s : state (world := world)) :
  (news_data = None ∨ news_data = Some ∅ →
   save_news_to_file clock base_dir news_data filename query_params s
   = (inr None, s))
  ∧ (∀ news, news_data = Some news → news ≠ ∅ →
     clock_ok (clock (net s)) = true →
     let fetched := clock (net s) in
     let expires :=
       DateTime (next_day (dt_date fetched)) (hour fetched) (minute fetched)
                (second fetched) (microsecond fetched) in
     let path := path_join (path_join base_dir "data") filename in
     let doc :=
       Document (Metadata (datetime_isoformat fetched)
                          (datetime_isoformat expires)
                          (default ∅ query_params))
                (news !! "status") (news !! "totalResults")
                (default (RList []) (news !! "articles")) in
     save_news_to_file clock base_dir news_data filename query_params s
     = (inr (Some path),
        State (net s) (usage_file s) (<[path := doc]> (data_files s)) (sent s)
              (stdout s ++ [SavedTo path]))).
Proof.
  split.
  - intros [->| ->]; [done|]. unfold save_news_to_file.
    by rewrite bool_decide_true.
  - intros news -> Hne Hc. cbv zeta. unfold save_news_to_file.
    rewrite bool_decide_false by done.
    destruct (day_after _ Hc) as [Hd Ha].
    unfold mbind, M_bind, now. rewrite Hd. cbn [or_overflow mret M_ret].
    rewrite Ha. reflexivity.
Qed.

(** C9 at the sample state: a result saved at 09:30 on 3 November 2026
    expires at 09:30 on 4 November. *)
Lemma C9_save_wraps_result_with_metadata_witness :
  clock_ok (sample_clock (net sample_state)) = true
  ∧ ∃ doc,
      save_news_to_file sample_clock "/app" (Some (ok_response [url_only "u1"]))
        "news_data.json" (Some {[ "days_back" := RInt 7 ]}) sample_state
      = (inr (Some "/app/data/news_data.json"),
         State 0%nat (Ledger sample_ledger)
               {[ "/app/data/news_data.json" := doc ]} []
               [SavedTo "/app/data/news_data.json"])
      ∧ fetched_at (doc_metadata doc) = "2026-11-03T09:30:00"
      ∧ expires_at (doc_metadata doc) = "2026-11-04T09:30:00"
      ∧ query_params (doc_metadata doc) = {[ "days_back" := RInt 7 ]}
      ∧ doc_articles doc = RList [url_only "u1"].
Proof.
  split; [reflexivity|].
  destruct (C9_save_wraps_result_with_metadata sample_clock "/app"
              (Some (ok_response [url_only "u1"])) "news_data.json"
              (Some {[ "days_back" := RInt 7 ]}) sample_state)
    as [_ Hsave].
  eexists. split.
  - apply (Hsave _ eq_refl); [apply insert_non_empty | reflexivity].
  - repeat split.
Defined.

(** ** Properties of the fetch pipeline *)

Section PipelineProperties.
Local Open Scope list_scope.
Context {world : Type} (clock : world → datetime).
Context (get_everything : request → world → (exn + response) * world).
Implicit Types (s : state (world := world)).

(** A turn whose call the client answers counts the call, whatever the
    response holds. *)
Lemma trigger_step_counts from_date to_date sort_by acc name query s r w' :
  get_everything (trigger_request from_date to_date sort_by query) (net s)
  = (inr r, w') →
  clock_ok (clock w') = true →
  ∃ acc' s',
    trigger_step clock get_everything from_date to_date sort_by acc (name, query) s
    = (inr acc', s')
    ∧ usage_file s' = Ledger (tracked (clock w') (usage_file s)).
Proof.
  intros Hg Hc.
  unfold trigger_step, try_except, mbind at 1, M_bind at 1, call_get_everything.
  unfold trigger_request in Hg. rewrite Hg.
  unfold mbind at 1, M_bind at 1. rewrite track_api_usage_run by done.
  destruct (bool_decide _ && rtruthy _).
  - unfold tag_articles. destruct (r !! "articles") as [[| | |l]|];
      by eexists _, _.
  - by eexists _, _.
Qed.

(** C1 (as the code has it): a search call is counted exactly when the
    client returns.  In [fetch_news_by_query] and in a turn of the loop of
    [fetch_sales_triggers] alike, a call the client raises on has reached
    the client and leaves the usage file as it was ([fetch_news_by_query]
    returns [None]); a call the client answers raises the bucket of the day
    it is answered on by 1. *)
Theorem C1_call_is_counted_when_the_client_returns
    (query sort_by from_date to_date name : string) (days_back : Z)
    (acc : list article) s (start : datetime) :
  window_start (clock (net s)) days_back = Some start →
  let req1 := Request query (isoformat (dt_date start))
                (isoformat (dt_date (clock (net s)))) sort_by "en"
                (Some journal_domains) in
  let req2 := Request query from_date to_date sort_by "en" None in
  let count ledger (w : world) :=
    default 0%Z (ledger !! isoformat (dt_date (clock w))) in
  (∀ e w', get_everything req1 (net s) = (inl e, w') →
     ∃ s',
       fetch_news_by_query clock get_everything query days_back sort_by s
       = (inr None, s')
       ∧ sent s' = sent s ++ [req1] ∧ usage_file s' = usage_file s)
  ∧ (∀ r w', get_everything req1 (net s) = (inr r, w') →
     clock_ok (clock w') = true →
     ∃ s' after,
       fetch_news_by_query clock get_everything query days_back sort_by s
       = (inr (Some r), s')
       ∧ sent s' = sent s ++ [req1] ∧ usage_file s' = Ledger after
       ∧ count after w' = (count (ledger_of (usage_file s)) w' + 1)%Z)
  ∧ (∀ e w', get_everything req2 (net s) = (inl e, w') →
     ∃ s',
       trigger_step clock get_everything from_date to_date sort_by acc
         (name, query) s
       = (inr acc, s')
       ∧ sent s' = sent s ++ [req2] ∧ usage_file s' = usage_file s)
  ∧ (∀ r w', get_everything req2 (net s) = (inr r, w') →
     clock_ok (clock w') = true →
     ∃ acc' s' after,
       trigger_step clock get_everything from_date to_date sort_by acc
         (name, query) s
       = (inr acc', s')
       ∧ sent s' = sent s ++ [req2] ∧ usage_file s' = Ledger after
       ∧ count after w' = (count (ledger_of (usage_file s)) w' + 1)%Z).
Proof.
  intros Hw req1 req2 count. split; [|split; [|split]].
  - intros e w' Hg. eexists. split; [by eapply fetch_news_by_query_raised|done].
  - intros r w' Hg Hc. eexists _, _.
    split; [by eapply fetch_news_by_query_returned|].
    split; [done|]. split; [done|].
    unfold count. by rewrite tracked_today.
  - intros e w' Hg. eexists. split; [by eapply trigger_step_raised|done].
  - intros r w' Hg Hc.
    destruct (trigger_step_counts from_date to_date sort_by acc name query s r w' Hg Hc)
      as (acc' & s' & E & Hu).
    destruct (trigger_step_returns clock get_everything from_date to_date sort_by
                acc (name, query) s) as (acc'' & s'' & E' & Hs).
    rewrite E in E'. injection E' as <- <-.
    exists acc', s', (tracked (clock w') (usage_file s)).
    split; [done|]. split; [done|]. split; [done|].
    unfold count. by rewrite tracked_today.
Qed.

(** C2 (what the code does): no request [fetch_sales_triggers] makes
    carries a domain exclusion; it makes one request per query, and each is
    the query with the window, the sort order and the language only. *)
Theorem C2_trigger_requests_carry_no_exclusion
    (trigger_queries : option (list (string * string))) (days_back : Z)
    (sort_by : string) (region : option string) s :
  is_Some (window_start (clock (net s)) days_back) →
  ∃ r s',
    fetch_sales_triggers clock get_everything trigger_queries days_back sort_by
      region s
    = (inr r, s')
    ∧ length (drop (length (sent s)) (sent s'))
      = length (queries_with_region (default DEFAULT_TRIGGERS trigger_queries) region)
    ∧ Forall (λ req, exclude_domains req = None) (drop (length (sent s)) (sent s')).
Proof.
  intros [start Hw].
  destruct (fetch_sales_triggers_returns clock get_everything trigger_queries
              days_back sort_by region s start Hw) as (all & s' & E & Hs).
  exists (batch_result all), s'. split; [done|].
  rewrite Hs, drop_app_length. split.
  - by rewrite !length_fmap.
  - apply Forall_fmap, Forall_true. done.
Qed.

(** C7: with a region that is not empty, the queries made are the
    catalog's, each rewritten to [(Q) AND region], one per entry and in the
    catalog's order. *)
Theorem C7_region_rewrites_every_query
    (trigger_queries : option (list (string * string))) (days_back : Z)
    (sort_by region : string) s :
  region ≠ "" →
  NoDup (default DEFAULT_TRIGGERS trigger_queries).*1 →
  is_Some (window_start (clock (net s)) days_back) →
  ∃ r s',
    fetch_sales_triggers clock get_everything trigger_queries days_back sort_by
      (Some region) s
    = (inr r, s')
    ∧ q <$> drop (length (sent s)) (sent s')
      = (λ entry, "(" +:+ entry.2 +:+ ") AND " +:+ region)
        <$> default DEFAULT_TRIGGERS trigger_queries.
Proof.
  intros Hr Hnd [start Hw].
  destruct (fetch_sales_triggers_returns clock get_everything trigger_queries
              days_back sort_by (Some region) s start Hw) as (all & s' & E & Hs).
  exists (batch_result all), s'. split; [done|].
  rewrite Hs, drop_app_length, queries_with_region_rewritten by done.
  rewrite <- !list_fmap_compose. apply list_fmap_ext. by intros i [name query] _.
Qed.


End PipelineProperties.

(** ** Scenarios *)

Section Scenarios.
Local Open Scope list_scope.
Context {world : Type} (clock : world → datetime).
Context (get_everything : request → world → (exn + response) * world).
Implicit Types (s : state (world := world)).


(** C3: the catalog with ["A"] for ["foo"] and ["B"] for ["bar"], where
    the first query is answered with the articles of URLs u1 and u2 and the
    second with those of URLs u2 and u3, gives u1 and u2 tagged ["A"] and u3
    tagged ["B"], and a total of 3. *)
Theorem C3_two_queries_sharing_an_article (days_back : Z) (sort_by : string) s :
  is_Some (window_start (clock (net s)) days_back) →
  (∀ w, clock_ok (clock w) = true) →
  (∀ req w, q req = "foo" →
     ∃ r w', get_everything req w = (inr r, w')
       ∧ r !! "status" = Some (RStr "ok")
       ∧ r !! "articles"
         = Some (RList [ {[ "url" := JStr "u1" ]}; {[ "url" := JStr "u2" ]} ])) →
  (∀ req w, q req = "bar" →
     ∃ r w', get_everything req w = (inr r, w')
       ∧ r !! "status" = Some (RStr "ok")
       ∧ r !! "articles"
         = Some (RList [ {[ "url" := JStr "u2" ]}; {[ "url" := JStr "u3" ]} ])) →
  ∃ s',
    fetch_sales_triggers clock get_everything (Some [("A", "foo"); ("B", "bar")])
      days_back sort_by None s
    = (inr (<["status" := RStr "ok"]>
              (<["totalResults" := RInt 3]>
                 (<["articles" :=
                      RList [ <["trigger_type" := JStr "A"]> {[ "url" := JStr "u1" ]};
                              <["trigger_type" := JStr "A"]> {[ "url" := JStr "u2" ]};
                              <["trigger_type" := JStr "B"]> {[ "url" := JStr "u3" ]} ]]>
                    ∅))),
       s').
Proof.
  intros [start Hw] Hc HA HB.
  rewrite (fetch_sales_triggers_window _ _ _ _ _ _ _ _ Hw).
  change (queries_with_region (default DEFAULT_TRIGGERS (Some ?l)) None) with l.
  cbn [for_each]. unfold mbind, M_bind.
  set (from_date := isoformat (dt_date start)).
  set (to_date := isoformat (dt_date (clock (net s)))).
  destruct (HA (trigger_request from_date to_date sort_by "foo") (net s) eq_refl)
    as (r1 & w1 & Hg1 & Hst1 & Har1).
  rewrite (trigger_step_found _ _ _ _ _ _ _ _ _ _ _ _ _ Hg1 (Hc w1) Hst1 Har1).
  match goal with |- context [trigger_step _ _ _ _ _ _ _ ?s1] => set (st1 := s1) end.
  destruct (HB (trigger_request from_date to_date sort_by "bar") (net st1) eq_refl)
    as (r2 & w2 & Hg2 & Hst2 & Har2).
  rewrite (trigger_step_found _ _ _ _ _ _ _ _ _ _ _ _ _ Hg2 (Hc w2) Hst2 Har2).
  cbn [mret M_ret]. eexists. f_equal.
Qed.

(** A turn whose call is answered with status ["ok"] and an empty list of
    articles gathers nothing. *)
Lemma trigger_step_nothing_found from_date to_date order acc name query s r w' :
  get_everything (trigger_request from_date to_date order query) (net s)
  = (inr r, w') →
  clock_ok (clock w') = true →
  r !! "articles" = Some (RList []) →
  ∃ s',
    trigger_step clock get_everything from_date to_date order acc (name, query) s
    = (inr acc, s').
Proof.
  intros Hg Hc Har.
  unfold trigger_step, try_except, mbind at 1, M_bind at 1, call_get_everything.
  unfold trigger_request in Hg. rewrite Hg.
  unfold mbind at 1, M_bind at 1. rewrite track_api_usage_run by done.
  rewrite Har. cbn [rtruthy]. rewrite andb_false_r. by eexists.
Qed.

(** The loop, for a client that answers some queries and refuses the
    others: the articles gathered are those of the answers, tagged, in the
    order of the queries. *)
Lemma for_each_answered_or_refused (answer : string → option (list article))
    from_date to_date order queries acc s :
  (∀ w, clock_ok (clock w) = true) →
  (∀ req w, q req ∈ queries.*2 →
     match answer (q req) with
     | Some l =>
         ∃ r w', get_everything req w = (inr r, w')
           ∧ r !! "status" = Some (RStr "ok")
           ∧ r !! "articles" = Some (RList l)
     | None => ∃ e w', get_everything req w = (inl e, w')
     end) →
  ∃ s',
    for_each (trigger_step clock get_everything from_date to_date order) acc queries s
    = (inr (acc ++ concat ((λ entry : string * string,
                              match answer entry.2 with
                              | Some l => tagged entry.1 <$> l
                              | None => []
                              end) <$> queries)),
       s').
Proof.
  intros Hc. revert acc s.
  induction queries as [|[name query] queries IH]; intros acc s Hans.
  { exists s. cbn. by rewrite app_nil_r. }
  assert (∀ req w, q req ∈ queries.*2 →
            match answer (q req) with
            | Some l =>
                ∃ r w', get_everything req w = (inr r, w')
                  ∧ r !! "status" = Some (RStr "ok")
                  ∧ r !! "articles" = Some (RList l)
            | None => ∃ e w', get_everything req w = (inl e, w')
            end) as Hrest.
  { intros req w Hin. apply Hans. cbn [fmap list_fmap snd]. by right. }
  specialize (Hans (trigger_request from_date to_date order query) (net s)).
  cbn [trigger_request q fmap list_fmap snd] in Hans.
  specialize (Hans ltac:(by left)).
  cbn [for_each fmap list_fmap concat snd fst]. unfold mbind, M_bind.
  destruct (answer query) as [[|a l]|].
  - destruct Hans as (r & w' & Hg & Hst & Har).
    destruct (trigger_step_nothing_found from_date to_date order acc name query
                s r w' Hg (Hc w') Har) as (s1 & ->).
    cbn [fmap list_fmap app]. by apply IH.
  - destruct Hans as (r & w' & Hg & Hst & Har).
    rewrite (trigger_step_found _ _ _ _ _ _ _ _ _ _ _ _ _ Hg (Hc w') Hst Har).
    match goal with |- context [for_each _ ?acc1 _ ?s1] =>
      destruct (IH acc1 s1 Hrest) as (s' & ->) end.
    exists s'. by rewrite <- app_assoc.
  - destruct Hans as (e & w' & Hg).
    rewrite (trigger_step_raised _ _ _ _ _ _ _ _ _ _ _ Hg).
    cbn [app]. by apply IH.
Qed.


(** X20: for a client that answers some queries and refuses the others,
    the batch returns the articles of the answers, each tagged with the label
    of its query, in the order of the queries and deduplicated, with their
    number as total: a refused query takes nothing from what the others
    gathered, wherever it stands. *)
Theorem X20_the_batch_is_the_answers_gathered
    (answer : string → option (list article))
    (trigger_queries : option (list (string * string))) (days_back : Z)
    (sort_by : string) (region : option string) s :
  is_Some (window_start (clock (net s)) days_back) →
  (∀ w, clock_ok (clock w) = true) →
  (∀ req w,
     q req ∈ (queries_with_region (default DEFAULT_TRIGGERS trigger_queries)
                region).*2 →
     match answer (q req) with
     | Some l =>
         ∃ r w', get_everything req w = (inr r, w')
           ∧ r !! "status" = Some (RStr "ok")
           ∧ r !! "articles" = Some (RList l)
     | None => ∃ e w', get_everything req w = (inl e, w')
     end) →
  let unique :=
    deduplicate_articles
      (concat ((λ entry : string * string,
                  match answer entry.2 with
                  | Some l => (λ a, <["trigger_type" := JStr entry.1]> a) <$> l
                  | None => []
                  end)
               <$> queries_with_region
                     (default DEFAULT_TRIGGERS trigger_queries) region)) in
  ∃ s',
    fetch_sales_triggers clock get_everything trigger_queries days_back
      sort_by region s
    = (inr (<["status" := RStr "ok"]>
              (<["totalResults" := RInt (Z.of_nat (length unique))]>
                 (<["articles" := RList unique]> ∅))),
       s').
Proof.
  intros [start Hw] Hc Hans. cbv zeta.
  rewrite (fetch_sales_triggers_window _ _ _ _ _ _ _ _ Hw).
  unfold mbind, M_bind.
  destruct (for_each_answered_or_refused answer (isoformat (dt_date start))
              (isoformat (dt_date (clock (net s)))) sort_by
              (queries_with_region (default DEFAULT_TRIGGERS trigger_queries) region)
              [] s Hc Hans) as (s' & ->).
  by exists s'.
Qed.

End Scenarios.

(** ** The properties at the sample world *)

Lemma sample_clock_ok (w : nat) : clock_ok (sample_clock w) = true.
Proof. reflexivity. Qed.

Lemma sample_api_foo (req : request) (w : nat) :
  q req = "foo" →
  ∃ r w', sample_api req w = (inr r, w')
    ∧ r !! "status" = Some (RStr "ok")
    ∧ r !! "articles"
      = Some (RList [ {[ "url" := JStr "u1" ]}; {[ "url" := JStr "u2" ]} ]).
Proof. intros H. unfold sample_api. rewrite H. by eexists _, _. Qed.

Lemma sample_api_bar (req : request) (w : nat) :
  q req = "bar" →
  ∃ r w', sample_api req w = (inr r, w')
    ∧ r !! "status" = Some (RStr "ok")
    ∧ r !! "articles"
      = Some (RList [ {[ "url" := JStr "u2" ]}; {[ "url" := JStr "u3" ]} ]).
Proof. intros H. unfold sample_api. rewrite H. by eexists _, _. Qed.



Lemma sample_window_week :
  window_start (sample_clock (net sample_state)) 7
  = Some (DateTime (Date 2026 10 27) 9 30 0 0).
Proof. vm_compute. reflexivity. Qed.

Lemma sample_window_month :
  window_start (sample_clock (net sample_state)) 30
  = Some (DateTime (Date 2026 10 4) 9 30 0 0).
Proof. vm_compute. reflexivity. Qed.

(** What the two entry points hand to the client for the same query. *)
Example sample_requests :
  sent (fetch_sales_triggers sample_clock sample_api (Some [("A", "foo")]) 7
          "publishedAt" None sample_state).2
  = [Request "foo" "2026-10-27" "2026-11-03" "publishedAt" "en" None]
  ∧ sent (fetch_news_by_query sample_clock sample_api "foo" 7 "publishedAt"
            sample_state).2
    = [Request "foo" "2026-10-27" "2026-11-03" "publishedAt" "en"
               (Some "arxiv.org,ieee.org,springer.com")].
Proof. split; vm_compute; reflexivity. Qed.

(** C1 fails as stated: a fetch the client raises on reaches the client and
    returns [None], and today's count is 5 after it as it was before. *)
Lemma C1_failed_fetch_is_not_counted :
  let s' :=
    State 1%nat (Ledger sample_ledger) ∅
          [Request "nope" "2026-10-04" "2026-11-03" "publishedAt" "en"
                   (Some "arxiv.org,ieee.org,springer.com")]
          [ErrorFetching (ClientError "bad request")] in
  fetch_news_by_query sample_clock sample_api "nope" 30 "publishedAt" sample_state
  = (inr None, s')
  ∧ (get_api_usage_today sample_clock sample_state).1 = inr 5%Z
  ∧ (get_api_usage_today sample_clock s').1 = inr 5%Z.
Proof. repeat split; vm_compute; reflexivity. Qed.

(** C1 (as the code has it) at the sample world: an answered fetch raises
    today's count from 5 to 6. *)
Lemma C1_call_is_counted_when_the_client_returns_witness :
  window_start (sample_clock (net sample_state)) 30
  = Some (DateTime (Date 2026 10 4) 9 30 0 0)
  ∧ ∃ s' after,
      fetch_news_by_query sample_clock sample_api "foo" 30 "publishedAt" sample_state
      = (inr (Some (ok_response [url_only "u1"; url_only "u2"])), s')
      ∧ usage_file s' = Ledger after
      ∧ default 0%Z (after !! "2026-11-03") = 6%Z.
Proof.
  split; [exact sample_window_month|].
  destruct (C1_call_is_counted_when_the_client_returns sample_clock sample_api
              "foo" "publishedAt" "2026-10-04" "2026-11-03" "A" 30 [] sample_state
              _ sample_window_month) as (_ & Hret & _).
  destruct (Hret _ _ eq_refl eq_refl) as (s' & after & E & _ & Hu & Hn).
  exists s', after. split; [exact E|]. split; [exact Hu | exact Hn].
Defined.

(** C2 at the sample world. *)
Lemma C2_trigger_requests_carry_no_exclusion_witness :
  is_Some (window_start (sample_clock (net sample_state)) 7)
  ∧ ∃ r s',
      fetch_sales_triggers sample_clock sample_api (Some [("A", "foo")]) 7
        "publishedAt" None sample_state
      = (inr r, s')
      ∧ length (drop 0 (sent s')) = 1%nat
      ∧ Forall (λ req, exclude_domains req = None) (drop 0 (sent s')).
Proof.
  split; [exact (mk_is_Some _ _ sample_window_week)|].
  apply (C2_trigger_requests_carry_no_exclusion sample_clock sample_api
           (Some [("A", "foo")]) 7 "publishedAt" None sample_state).
  exact (mk_is_Some _ _ sample_window_week).
Defined.

(** C3 at the sample world. *)
Lemma C3_two_queries_sharing_an_article_witness :
  is_Some (window_start (sample_clock (net sample_state)) 7)
  ∧ ∃ s',
      fetch_sales_triggers sample_clock sample_api
        (Some [("A", "foo"); ("B", "bar")]) 7 "publishedAt" None sample_state
      = (inr (<["status" := RStr "ok"]>
                (<["totalResults" := RInt 3]>
                   (<["articles" :=
                        RList [ <["trigger_type" := JStr "A"]> {[ "url" := JStr "u1" ]};
                                <["trigger_type" := JStr "A"]> {[ "url" := JStr "u2" ]};
                                <["trigger_type" := JStr "B"]> {[ "url" := JStr "u3" ]} ]]>
                      ∅))),
         s').
Proof.
  split; [exact (mk_is_Some _ _ sample_window_week)|].
  apply (C3_two_queries_sharing_an_article sample_clock sample_api 7 "publishedAt"
           sample_state).
  - exact (mk_is_Some _ _ sample_window_week).
  - exact sample_clock_ok.
  - exact sample_api_foo.
  - exact sample_api_bar.
Defined.

(** C7 at the sample world, for the region ["Singapore"]. *)
Lemma C7_region_rewrites_every_query_witness :
  "Singapore" ≠ ""
  ∧ is_Some (window_start (sample_clock (net sample_state)) 7)
  ∧ ∃ r s',
      fetch_sales_triggers sample_clock sample_api
        (Some [("A", "foo"); ("B", "bar")]) 7 "publishedAt" (Some "Singapore")
        sample_state
      = (inr r, s')
      ∧ q <$> drop 0 (sent s') = ["(foo) AND Singapore"; "(bar) AND Singapore"].
Proof.
  split; [done|]. split; [exact (mk_is_Some _ _ sample_window_week)|].
  apply (C7_region_rewrites_every_query sample_clock sample_api
           (Some [("A", "foo"); ("B", "bar")]) 7 "publishedAt" "Singapore"
           sample_state).
  - done.
  - apply (bool_decide_unpack (NoDup _)). vm_compute. exact I.
  - exact (mk_is_Some _ _ sample_window_week).
Defined.



(** X20 at the sample world: ["foo"] and ["bar"] are answered, with one
    article in common, and the query between them is refused. *)
Lemma X20_the_batch_is_the_answers_gathered_witness :
  is_Some (window_start (sample_clock (net sample_state)) 7)
  ∧ (∀ w, clock_ok (sample_clock w) = true)
  ∧ ∃ s',
      fetch_sales_triggers sample_clock sample_api
        (Some [("A", "foo"); ("C", "nope"); ("B", "bar")]) 7 "publishedAt" None
        sample_state
      = (inr (<["status" := RStr "ok"]>
                (<["totalResults" := RInt 3]>
                   (<["articles" :=
                        RList [ <["trigger_type" := JStr "A"]> (url_only "u1");
                                <["trigger_type" := JStr "A"]> (url_only "u2");
                                <["trigger_type" := JStr "B"]> (url_only "u3") ]]>
                      ∅))),
         s').
Proof.
  split; [exact (mk_is_Some _ _ sample_window_week)|].
  split; [exact sample_clock_ok|].
  apply (X20_the_batch_is_the_answers_gathered sample_clock sample_api
           (λ query, if String.eqb query "foo"
                     then Some [url_only "u1"; url_only "u2"]
                     else if String.eqb query "bar"
                     then Some [url_only "u2"; url_only "u3"]
                     else if String.eqb query "baz"
                     then Some [url_only "u4"]
                     else None)
           (Some [("A", "foo"); ("C", "nope"); ("B", "bar")]) 7 "publishedAt" None
           sample_state (mk_is_Some _ _ sample_window_week) sample_clock_ok).
  intros req w _. unfold sample_api.
  destruct (String.eqb (q req) "foo"); [by eexists _, _|].
  destruct (String.eqb (q req) "bar"); [by eexists _, _|].
  destruct (String.eqb (q req) "baz"); by eexists _, _.
Defined.

(** ** Further properties of the deduplicator *)

Section DedupMore.
Local Open Scope list_scope.
Implicit Types (a : article) (l : list article) (seen : gset string).

Lemma urls_of_cons a l :
  urls_of (a :: l)
  = match article_url a with Some u => {[u]} ∪ urls_of l | None => urls_of l end.
Proof.
  unfold urls_of.
  change (omap article_url (a :: l))
    with (match article_url a with
          | Some u => u :: omap article_url l
          | None => omap article_url l
          end).
  by destruct (article_url a).
Qed.

Lemma elem_of_urls_of l u :
  u ∈ urls_of l ↔ ∃ a, a ∈ l ∧ a !! "url" = Some (JStr u) ∧ u ≠ "".
Proof.
  unfold urls_of. rewrite elem_of_list_to_set, list_elem_of_omap.
  split; intros (a & Ha & Hu); exists a; split; try done; by apply article_url_Some.
Qed.

(** The loop loses no URL: what it keeps has the URLs of its input that
    were not seen before. *)
Lemma urls_of_dedup_from seen l :
  urls_of (dedup_from seen l) = urls_of l ∖ seen.
Proof.
  revert seen. induction l as [|a l IH]; intros seen; cbn [dedup_from].
  { unfold urls_of. cbn. set_solver. }
  rewrite (urls_of_cons a l).
  destruct (article_url a) as [u|] eqn:Ea; [|by rewrite IH].
  case_bool_decide as Hin.
  - rewrite IH. set_solver.
  - rewrite urls_of_cons, Ea, IH. apply set_eq. intros v.
    destruct (decide (v = u)) as [->|Hv]; set_solver.
Qed.

(** A larger seen set only filters what the loop keeps. *)
Lemma dedup_from_union seen seen' l :
  dedup_from (seen ∪ seen') l = List.filter (url_unseen seen) (dedup_from seen' l).
Proof.
  revert seen'. induction l as [|a l IH]; intros seen'; cbn [dedup_from]; [done|].
  destruct (article_url a) as [u|] eqn:Ea; [|apply IH].
  destruct (decide (u ∈ seen')) as [Hin'|Hin'].
  - rewrite (bool_decide_true (u ∈ seen ∪ seen')), (bool_decide_true (u ∈ seen'))
      by set_solver.
    apply IH.
  - rewrite (bool_decide_false (u ∈ seen')) by done. cbn [List.filter].
    unfold url_unseen at 1. rewrite Ea.
    destruct (decide (u ∈ seen)) as [Hin|Hin].
    + rewrite (bool_decide_true (u ∈ seen ∪ seen')), (bool_decide_false (u ∉ seen))
        by set_solver.
      rewrite <- IH. f_equal. set_solver.
    + rewrite (bool_decide_false (u ∈ seen ∪ seen')), (bool_decide_true (u ∉ seen))
        by set_solver.
      rewrite <- IH. do 2 f_equal. set_solver.
Qed.

Lemma dedup_from_app seen l1 l2 :
  dedup_from seen (l1 ++ l2)
  = dedup_from seen l1 ++ dedup_from (urls_of l1 ∪ seen) l2.
Proof.
  revert seen. induction l1 as [|a l1 IH]; intros seen; cbn [app dedup_from].
  { f_equal. unfold urls_of. cbn. set_solver. }
  rewrite urls_of_cons.
  destruct (article_url a) as [u|] eqn:Ea; [|apply IH].
  case_bool_decide as Hin.
  - rewrite IH. do 2 f_equal. set_solver.
  - rewrite IH. cbn [app]. do 3 f_equal. set_solver.
Qed.

(** X1: deduplication loses no URL and invents none: a URL that is not
    empty is the URL of some article of the output exactly when it is the URL
    of some article of the input. *)
Theorem X1_dedupe_keeps_every_url (l : list article) (u : string) :
  (∃ b, b ∈ deduplicate_articles l ∧ b !! "url" = Some (JStr u) ∧ u ≠ "")
  ↔ (∃ a, a ∈ l ∧ a !! "url" = Some (JStr u) ∧ u ≠ "").
Proof.
  rewrite <- !elem_of_urls_of, deduplicate_articles_from, urls_of_dedup_from.
  set_solver.
Qed.

(** X2: deduplicating two batches one after the other is deduplicating
    the first, then adding of the deduplicated second the articles whose URL
    the first does not have; so batches may be deduplicated before they are
    merged. *)
Theorem X2_dedupe_of_a_concatenation (l1 l2 : list article) :
  deduplicate_articles (l1 ++ l2)
  = deduplicate_articles l1
    ++ List.filter (url_unseen (urls_of l1)) (deduplicate_articles l2)
  ∧ deduplicate_articles (deduplicate_articles l1 ++ deduplicate_articles l2)
    = deduplicate_articles (l1 ++ l2).
Proof.
  assert (∀ k1 k2, deduplicate_articles (k1 ++ k2)
            = deduplicate_articles k1
              ++ List.filter (url_unseen (urls_of k1)) (deduplicate_articles k2)) as H.
  { intros k1 k2. rewrite !deduplicate_articles_from, dedup_from_app.
    by rewrite dedup_from_union. }
  assert (∀ k, deduplicate_articles (deduplicate_articles k)
            = deduplicate_articles k) as Hfix.
  { intros k. rewrite !deduplicate_articles_from.
    destruct (dedup_from_urls ∅ k) as [Hall Hnd]. by apply dedup_from_fixed. }
  split; [apply H|].
  rewrite !H, !Hfix.
  do 3 f_equal. rewrite deduplicate_articles_from, urls_of_dedup_from. set_solver.
Qed.

End DedupMore.

(** X3: a list in which every article has a URL that is not empty and no
    two articles share one comes back as it is. *)
Theorem X3_dedupe_leaves_clean_input_alone (l : list article) :
  (∀ a, a ∈ l → ∃ u, a !! "url" = Some (JStr u) ∧ u ≠ "") →
  (∀ i j a b, l !! i = Some a → l !! j = Some b →
     a !! "url" = b !! "url" → i = j) →
  deduplicate_articles l = l.
Proof.
  intros Hurl Hdistinct. rewrite deduplicate_articles_from.
  apply dedup_from_fixed.
  - apply Forall_forall. intros a Ha. destruct (Hurl a Ha) as (u & Hu & Hne).
    exists u. split; [by apply article_url_Some | set_solver].
  - apply NoDup_alt. intros i j x Hi Hj.
    rewrite list_lookup_fmap in Hi, Hj.
    destruct (l !! i) as [a|] eqn:Ea; [|done].
    destruct (l !! j) as [b|] eqn:Eb; [|done].
    cbn in Hi, Hj. injection Hi as Hi. injection Hj as Hj.
    destruct (Hurl a) as (u & Hu & Hne); [by eapply list_elem_of_lookup_2|].
    assert (article_url a = Some u) as Eu by (by apply article_url_Some).
    assert (article_url b = Some u) as [Hb _]%article_url_Some by congruence.
    apply (Hdistinct i j a b Ea Eb). congruence.
Qed.

Lemma X3_dedupe_leaves_clean_input_alone_witness :
  deduplicate_articles [url_only "u1"; url_only "u2"]
  = [url_only "u1"; url_only "u2"].
Proof.
  apply X3_dedupe_leaves_clean_input_alone.
  - intros a Ha. apply list_elem_of_In in Ha.
    destruct Ha as [<-|[<-|[]]]; eexists; (split; [reflexivity | discriminate]).
  - intros [|[|i]] [|[|j]] a b Hi Hj E; try done;
      cbn in Hi, Hj; injection Hi as <-; injection Hj as <-; discriminate E.
Defined.

(** ** Further properties of the usage tracker *)

Section UsageMore.
Context {world : Type} (clock : world → datetime).
Implicit Types (s : state (world := world)).

(** Reading today's count changes nothing, and a missing or unreadable file
    reads as 0. *)
Lemma get_api_usage_today_run s :
  get_api_usage_today clock s
  = (inr (default 0%Z (ledger_of (usage_file s)
                         !! isoformat (dt_date (clock (net s))))), s).
Proof.
  unfold get_api_usage_today, mbind, M_bind, now, read_usage.
  by destruct (usage_file s).
Qed.

(** X4: on a good clock reading, [n] calls of [track_api_usage] in a row
    all return, and [get_api_usage_today] then reads [n] more than it read
    before: no call is lost to the pruning or to a file that was missing or
    unreadable. *)
Theorem X4_calls_add_up (n : nat) s (before : Z) :
  clock_ok (clock (net s)) = true →
  get_api_usage_today clock s = (inr before, s) →
  ∃ s',
    repeat_call n (track_api_usage clock) s = (inr tt, s')
    ∧ get_api_usage_today clock s' = (inr (before + Z.of_nat n)%Z, s').
Proof.
  revert s before. induction n as [|n IH]; intros s before Hc Hb.
  - exists s. split; [done|]. by rewrite Z.add_0_r.
  - cbn [repeat_call]. unfold mbind, M_bind.
    rewrite track_api_usage_run by done.
    match goal with |- context [repeat_call n _ ?s1] => set (s1' := s1) end.
    destruct (IH s1' (before + 1)%Z Hc) as (s' & E & Hcount).
    { rewrite get_api_usage_today_run in Hb |- *. injection Hb as Hb.
      cbn [usage_file net s1' ledger_of]. rewrite tracked_today by done.
      cbn [default]. by rewrite Hb. }
    exists s'. split; [done|]. rewrite Hcount. do 2 f_equal. lia.
Qed.

End UsageMore.

(** X4 at the sample state: three calls raise today's count from 5 to 8. *)
Lemma X4_calls_add_up_witness :
  clock_ok (sample_clock (net sample_state)) = true
  ∧ get_api_usage_today sample_clock sample_state = (inr 5%Z, sample_state)
  ∧ ∃ s',
      repeat_call 3 (track_api_usage sample_clock) sample_state = (inr tt, s')
      ∧ get_api_usage_today sample_clock s' = (inr 8%Z, s').
Proof.
  split; [reflexivity|]. split; [reflexivity|].
  exact (X4_calls_add_up sample_clock 3 sample_state 5 eq_refl eq_refl).
Defined.

(** ** Further properties of the fetchers *)

Section FetchMore.
Local Open Scope list_scope.
Context {world : Type} (clock : world → datetime).
Context (get_everything : request → world → (exn + response) * world).
Implicit Types (s : state (world := world)).

Lemma fetch_sales_triggers_overflow trigger_queries days_back sort_by region s :
  window_start (clock (net s)) days_back = None →
  fetch_sales_triggers clock get_everything trigger_queries days_back sort_by region s
  = (inl OverflowError, s).
Proof.
  unfold window_start, fetch_sales_triggers. intros Hw. cbv zeta.
  unfold mbind at 1, M_bind at 1, now at 1. cbv beta iota.
  unfold mbind at 1, M_bind at 1.
  destruct (timedelta_of days_back 0) as [back|]; [|done].
  cbn [mbind option_bind] in Hw. cbn [or_overflow mret M_ret]. cbv beta iota.
  unfold mbind at 1, M_bind at 1. rewrite Hw. done.
Qed.

(** X6: a look-back that leaves the calendar (or is more than 999999999
    days) is not caught: both fetchers raise [OverflowError] to the caller,
    before any request is made and without changing anything. *)
Theorem X6_unrepresentable_window_raises
    (query sort_by : string) (trigger_queries : option (list (string * string)))
    (region : option string) (days_back : Z) s :
  window_start (clock (net s)) days_back = None →
  fetch_news_by_query clock get_everything query days_back sort_by s
  = (inl OverflowError, s)
  ∧ fetch_sales_triggers clock get_everything trigger_queries days_back sort_by
      region s
    = (inl OverflowError, s).
Proof.
  intros Hw. split.
  - by apply fetch_news_by_query_overflow.
  - by apply fetch_sales_triggers_overflow.
Qed.

(** X7: with a representable window [fetch_news_by_query] returns
    whatever the client and the usage tracking do: it makes exactly one
    request, and either returns a response and prints nothing, or returns
    [None] and prints one error line. *)
Theorem X7_fetch_news_by_query_swallows_every_error
    (query sort_by : string) (days_back : Z) s :
  is_Some (window_start (clock (net s)) days_back) →
  ∃ r s',
    fetch_news_by_query clock get_everything query days_back sort_by s = (inr r, s')
    ∧ length (sent s') = S (length (sent s))
    ∧ match r with
      | Some _ => stdout s' = stdout s
      | None => ∃ e, stdout s' = stdout s ++ [ErrorFetching e]
      end.
Proof.
  intros [start Hw]. rewrite (fetch_news_by_query_window _ _ _ _ _ _ _ Hw).
  unfold try_except, mbind at 1, M_bind at 1, call_get_everything.
  destruct (get_everything _ (net s)) as [[e|r] w'].
  { eexists _, _. split; [done|]. cbn [sent stdout print mbind M_bind mret M_ret].
    rewrite length_app. cbn [length]. split; [lia | by eexists]. }
  unfold mbind at 1, M_bind at 1.
  match goal with |- context [track_api_usage clock ?s1] =>
    destruct (track_api_usage clock s1) as [[e|[]] s2] eqn:Et;
    apply track_api_usage_frame in Et as (_ & _ & Hsent & Hout & _) end;
    cbn [sent stdout] in Hsent, Hout.
  - eexists _, _. split; [done|]. cbn [sent stdout print mbind M_bind mret M_ret].
    rewrite Hsent, Hout, length_app. cbn [length]. split; [lia | by eexists].
  - eexists _, _. split; [done|]. cbn [mret M_ret].
    rewrite Hsent, Hout, length_app. cbn [length]. split; [lia | done].
Qed.

(** The start of a window is a date, on or before the day of the clock when
    the look-back is not negative. *)
Lemma window_start_date (t start : datetime) (days_back : Z) :
  valid_datetime t = true → window_start t days_back = Some start →
  valid_date (dt_date start) = true
  ∧ (0 <= days_back → date_leb (dt_date start) (dt_date t) = true)%Z.
Proof.
  intros Ht Hw.
  pose proof Ht as (Hd & _)%valid_datetime_spec.
  apply valid_date_spec in Hd as [Hf Hy].
  destruct (shift_days_spec (dt_date t) (- days_back) Hf) as (Hf' & _ & Hr).
  revert Hw. unfold window_start, timedelta_of, timedelta_ok. cbn [td_days].
  change (0 * 3600)%Z with 0%Z. change (0 / 86400)%Z with 0%Z.
  change (0 mod 86400)%Z with 0%Z.
  rewrite Z.add_0_r. case_match; [|done]. cbn [mbind option_bind].
  unfold datetime_sub. rewrite timedelta_neg_days, datetime_add_whole_days by done.
  cbv zeta. generalize dependent (shift_days (dt_date t) (- days_back)).
  intros d Hf' Hr. unfold MINYEAR, MAXYEAR.
  destruct (Z.leb_spec 1 (year d)), (Z.leb_spec (year d) 9999); cbn [andb]; try done.
  intros [= <-]. cbn [dt_date]. split.
  - by apply valid_date_spec.
  - intros Hn. unfold date_leb. rewrite date_compare_rank by done.
    destruct (Z.compare_spec (rank d) (rank (dt_date t))); try done. lia.
Qed.

(** X8: on a valid clock reading and with a look-back that is not
    negative and starts in the year 1000 or later (from there on
    [strftime] writes the year with four digits, as the rendering here
    does), the one request of [fetch_news_by_query] is for the query and the
    sort order given, in English, without the journal domains, and for a
    window from the ISO date of the start to that of today, the first not
    after the second as strings. *)
Theorem X8_search_request_is_well_formed
    (query order : string) (days_back : Z) s (start : datetime) :
  valid_datetime (clock (net s)) = true →
  (0 <= days_back)%Z →
  window_start (clock (net s)) days_back = Some start →
  (1000 <= year (dt_date start))%Z →
  ∃ r s' req,
    fetch_news_by_query clock get_everything query days_back order s = (inr r, s')
    ∧ sent s' = sent s ++ [req]
    ∧ q req = query ∧ sort_by req = order ∧ language req = "en"
    ∧ exclude_domains req = Some "arxiv.org,ieee.org,springer.com"
    ∧ from_param req = isoformat (dt_date start)
    ∧ to req = isoformat (dt_date (clock (net s)))
    ∧ String.leb (from_param req) (to req) = true.
Proof.
  intros Ht Hn Hw _.
  destruct (window_start_date _ _ _ Ht Hw) as [Hv Hle]. specialize (Hle Hn).
  pose proof Ht as (Hd & _)%valid_datetime_spec.
  rewrite (fetch_news_by_query_window _ _ _ _ _ _ _ Hw).
  unfold try_except, mbind at 1, M_bind at 1, call_get_everything.
  set (req := Request query (isoformat (dt_date start))
                (isoformat (dt_date (clock (net s)))) order "en"
                (Some journal_domains)).
  assert (String.leb (from_param req) (to req) = true) as Hwin.
  { cbn [from_param to req]. by rewrite isoformat_leb. }
  destruct (get_everything req (net s)) as [[e|r] w'].
  { eexists _, _, req. split; [done|]. by cbn. }
  unfold mbind at 1, M_bind at 1.
  match goal with |- context [track_api_usage clock ?s1] =>
    destruct (track_api_usage clock s1) as [[e|[]] s2] eqn:Et;
    apply track_api_usage_frame in Et as (_ & _ & Hsent & _) end;
    cbn [sent] in Hsent.
  - eexists _, _, req. split; [done|].
    cbn [sent print mbind M_bind mret M_ret]. by rewrite Hsent.
  - eexists _, _, req. split; [done|]. cbn [mret M_ret]. by rewrite Hsent.
Qed.

End FetchMore.

(** X6 at the sample world: a look-back of a thousand million days. *)
Lemma X6_unrepresentable_window_raises_witness :
  window_start (sample_clock (net sample_state)) 1000000000 = None
  ∧ fetch_news_by_query sample_clock sample_api "foo" 1000000000 "publishedAt"
      sample_state
    = (inl OverflowError, sample_state)
  ∧ fetch_sales_triggers sample_clock sample_api None 1000000000 "publishedAt"
      (Some "Singapore") sample_state
    = (inl OverflowError, sample_state).
Proof.
  split; [reflexivity|].
  exact (X6_unrepresentable_window_raises sample_clock sample_api "foo"
           "publishedAt" None (Some "Singapore") 1000000000 sample_state eq_refl).
Defined.

(** X7 and X8 at the sample world. *)
Lemma X7_fetch_news_by_query_swallows_every_error_witness :
  is_Some (window_start (sample_clock (net sample_state)) 30)
  ∧ ∃ r s',
      fetch_news_by_query sample_clock sample_api "nope" 30 "publishedAt"
        sample_state
      = (inr r, s')
      ∧ length (sent s') = 1%nat
      ∧ match r with
        | Some _ => stdout s' = []
        | None => ∃ e, stdout s' = [ErrorFetching e]
        end.
Proof.
  split; [exact (mk_is_Some _ _ sample_window_month)|].
  exact (X7_fetch_news_by_query_swallows_every_error sample_clock sample_api
           "nope" "publishedAt" 30 sample_state
           (mk_is_Some _ _ sample_window_month)).
Defined.

Lemma X8_search_request_is_well_formed_witness :
  valid_datetime (sample_clock (net sample_state)) = true
  ∧ (0 <= 30)%Z
  ∧ window_start (sample_clock (net sample_state)) 30
    = Some (DateTime (Date 2026 10 4) 9 30 0 0)
  ∧ (1000 <= year (dt_date (DateTime (Date 2026 10 4) 9 30 0 0)))%Z
  ∧ ∃ r s' req,
      fetch_news_by_query sample_clock sample_api "foo" 30 "publishedAt"
        sample_state
      = (inr r, s')
      ∧ sent s' = [req]
      ∧ q req = "foo" ∧ sort_by req = "publishedAt" ∧ language req = "en"
      ∧ exclude_domains req = Some "arxiv.org,ieee.org,springer.com"
      ∧ from_param req = "2026-10-04"
      ∧ to req = "2026-11-03"
      ∧ String.leb (from_param req) (to req) = true.
Proof.
  split; [reflexivity|]. split; [done|].
  split; [exact sample_window_month|]. split; [done|].
  exact (X8_search_request_is_well_formed sample_clock sample_api "foo"
           "publishedAt" 30 sample_state (DateTime (Date 2026 10 4) 9 30 0 0)
           eq_refl ltac:(done) sample_window_month ltac:(done)).
Defined.

(** ** Further properties of the batch *)

Section BatchMore.
Local Open Scope list_scope.
Context {world : Type} (clock : world → datetime).
Context (get_everything : request → world → (exn + response) * world).
Implicit Types (s : state (world := world)).

(** A turn adds to the articles gathered only articles tagged with its
    label. *)
Lemma trigger_step_adds_tagged from_date to_date order acc name query s acc' s' :
  trigger_step clock get_everything from_date to_date order acc (name, query) s
  = (inr acc', s') →
  ∃ l, acc' = acc ++ (tagged name <$> l).
Proof.
  unfold trigger_step, try_except, mbind at 1, M_bind at 1, call_get_everything.
  destruct (get_everything _ (net s)) as [[e|r] w'].
  { intros [= <- <-]. exists []. by rewrite app_nil_r. }
  unfold mbind at 1, M_bind at 1.
  destruct (track_api_usage clock _) as [[e|[]] s2].
  { intros [= <- <-]. exists []. by rewrite app_nil_r. }
  destruct (bool_decide _ && rtruthy _).
  - unfold tag_articles. destruct (r !! "articles") as [[| | |l]|];
      intros [= <- <-]; try (exists []; by rewrite app_nil_r).
    by exists l.
  - intros [= <- <-]. exists []. by rewrite app_nil_r.
Qed.

Lemma for_each_adds_tagged (labels : list string) from_date to_date order
    queries acc s all s' :
  queries.*1 ⊆ labels →
  Forall (λ a, ∃ name, name ∈ labels ∧ a !! "trigger_type" = Some (JStr name)) acc →
  for_each (trigger_step clock get_everything from_date to_date order) acc queries s
  = (inr all, s') →
  Forall (λ a, ∃ name, name ∈ labels ∧ a !! "trigger_type" = Some (JStr name)) all.
Proof.
  revert acc s. induction queries as [|[name query] queries IH]; intros acc s Hsub Hacc.
  { by intros [= <- <-]. }
  cbn [for_each]. unfold mbind, M_bind.
  destruct (trigger_step _ _ _ _ _ _ _ s) as [[e|acc1] s1] eqn:E1; [done|].
  apply trigger_step_adds_tagged in E1 as [l ->].
  apply IH.
  - intros x Hx. apply Hsub. cbn [fmap list_fmap fst]. by right.
  - apply Forall_app. split; [done|]. apply Forall_fmap, Forall_true.
    intros a. exists name. split.
    + apply Hsub. cbn [fmap list_fmap fst]. by left.
    + unfold tagged. apply lookup_insert_eq.
Qed.

(** Item assignment adds at most its key. *)
Lemma dict_set_keys {V} (d : list (string * V)) k v x :
  x ∈ (dict_set d k v).*1 → x = k ∨ x ∈ d.*1.
Proof.
  induction d as [|[k' v'] d IH]; cbn [dict_set fmap list_fmap fst].
  { intros ->%list_elem_of_singleton. by left. }
  destruct (String.eqb_spec k' k) as [->|_]; cbn [fmap list_fmap fst].
  - intros H. by right.
  - intros [->|H]%elem_of_cons; [right; by left|].
    destruct (IH H) as [->|?]; [by left | right; by right].
Qed.

(** With or without a region, the labels of the queries are labels of the
    catalog. *)
Lemma queries_with_region_labels catalog region :
  (queries_with_region catalog region).*1 ⊆ catalog.*1.
Proof.
  unfold queries_with_region. destruct region as [r|]; [|done].
  destruct (str_truthy (Some r)); [|done].
  assert (∀ (acc : list (string * string)) d x,
            x ∈ (foldl (λ d '(name, query), dict_set d name (with_region query r))
                       d acc).*1 →
            x ∈ d.*1 ∨ x ∈ acc.*1) as H.
  { induction acc as [|[name query] acc IH]; intros d x; cbn [foldl]; [by left|].
    intros [Hx|Hx]%IH; [|right; by right].
    apply dict_set_keys in Hx as [->|Hx]; [right; by left | by left]. }
  intros x [Hx|Hx]%H; [|done]. by apply elem_of_nil in Hx.
Qed.

(** X10: whatever the client does, and whatever articles (with a URL that
    is a string, null or absent) it answers with, what [fetch_sales_triggers]
    returns is well formed: its status is ["ok"], its total is the number of its
    articles, every article carries as [trigger_type] a label of the catalog,
    has a URL that is not empty, and shares it with no other article. *)
Theorem X10_batch_result_is_well_formed
    (trigger_queries : option (list (string * string))) (days_back : Z)
    (order : string) (region : option string) s :
  is_Some (window_start (clock (net s)) days_back) →
  ∃ s' articles,
    fetch_sales_triggers clock get_everything trigger_queries days_back order
      region s
    = (inr (<["status" := RStr "ok"]>
              (<["totalResults" := RInt (Z.of_nat (length articles))]>
                 (<["articles" := RList articles]> ∅))),
       s')
    ∧ Forall (λ a, ∃ name u,
                name ∈ (default DEFAULT_TRIGGERS trigger_queries).*1
                ∧ a !! "trigger_type" = Some (JStr name)
                ∧ a !! "url" = Some (JStr u) ∧ u ≠ "") articles
    ∧ (∀ i j a b, articles !! i = Some a → articles !! j = Some b →
         a !! "url" = b !! "url" → i = j).
Proof.
  intros [start Hw]. rewrite (fetch_sales_triggers_window _ _ _ _ _ _ _ _ Hw).
  unfold mbind, M_bind.
  destruct (for_each_trigger_step_returns clock get_everything
              (isoformat (dt_date start)) (isoformat (dt_date (clock (net s))))
              order
              (queries_with_region (default DEFAULT_TRIGGERS trigger_queries) region)
              [] s) as (all & s' & E & _).
  rewrite E. exists s', (deduplicate_articles all). split; [done|].
  pose proof (for_each_adds_tagged
                (default DEFAULT_TRIGGERS trigger_queries).*1 _ _ _ _ _ _ _ _
                (queries_with_region_labels _ _) (Forall_nil_2 _) E) as Htag.
  rewrite deduplicate_articles_from.
  destruct (dedup_from_urls ∅ all) as [Hall Hnd].
  pose proof (dedup_from_sublist ∅ all) as Hsub. split.
  - apply Forall_forall. intros a Ha.
    rewrite Forall_forall in Hall, Htag.
    destruct (Hall a Ha) as (u & [Hu Hne]%article_url_Some & _).
    destruct (Htag a) as (name & Hname & Ht).
    { by eapply elem_of_sublist. }
    by exists name, u.
  - intros i j a b Hi Hj Eab.
    rewrite Forall_forall in Hall.
    destruct (Hall a) as (u & Eu & _); [by eapply list_elem_of_lookup_2|].
    assert (article_url b = Some u) as Eb.
    { apply article_url_Some in Eu as [Eu Hu]. apply article_url_Some.
      by rewrite <- Eab. }
    eapply NoDup_lookup; [exact Hnd| |].
    + by rewrite list_lookup_fmap, Hi.
    + rewrite list_lookup_fmap, Hj. cbn. congruence.
Qed.



(** X12: an empty catalog is taken as it is, not replaced by the default
    one: no request is made, nothing changes, and the result is the empty
    one, with a region or without. *)
Theorem X12_empty_catalog_makes_no_request
    (days_back : Z) (order : string) (region : option string) s :
  is_Some (window_start (clock (net s)) days_back) →
  fetch_sales_triggers clock get_everything (Some []) days_back order region s
  = (inr (<["status" := RStr "ok"]>
            (<["totalResults" := RInt 0]> (<["articles" := RList []]> ∅))),
     s).
Proof.
  intros [start Hw]. rewrite (fetch_sales_triggers_window _ _ _ _ _ _ _ _ Hw).
  assert (queries_with_region (default DEFAULT_TRIGGERS (Some [])) region = [])
    as ->; [|done].
  unfold queries_with_region. destruct region as [r|]; [|done].
  by destruct (str_truthy (Some r)).
Qed.

(** X13: an answer whose status is not ["ok"], or that has no articles
    (none, an empty list, or no such key), adds nothing to the articles
    gathered and prints nothing, but the call is counted all the same. *)
Theorem X13_an_answer_without_articles_is_still_counted
    (from_date to_date order name query : string) (acc : list article) s
    (r : response) (w' : world) :
  get_everything (Request query from_date to_date order "en" None) (net s)
  = (inr r, w') →
  clock_ok (clock w') = true →
  r !! "status" ≠ Some (RStr "ok")
  ∨ r !! "articles" = None ∨ r !! "articles" = Some RNull
  ∨ r !! "articles" = Some (RList []) →
  trigger_step clock get_everything from_date to_date order acc (name, query) s
  = (inr acc,
     State w' (Ledger (tracked (clock w') (usage_file s))) (data_files s)
           (sent s ++ [Request query from_date to_date order "en" None])
           (stdout s)).
Proof.
  intros Hg Hc Hr.
  unfold trigger_step, try_except, mbind at 1, M_bind at 1, call_get_everything.
  rewrite Hg. unfold mbind at 1, M_bind at 1. rewrite track_api_usage_run by done.
  assert (bool_decide (r !! "status" = Some (RStr "ok")) && rtruthy (r !! "articles")
          = false) as ->; [|done].
  destruct Hr as [Hst | [-> | [-> | ->]]].
  - by rewrite bool_decide_false.
  - apply andb_false_r.
  - apply andb_false_r.
  - apply andb_false_r.
Qed.

End BatchMore.

(** X10 to X13 at the sample world. *)
Lemma X10_batch_result_is_well_formed_witness :
  is_Some (window_start (sample_clock (net sample_state)) 7)
  ∧ ∃ s' articles,
      fetch_sales_triggers sample_clock sample_api
        (Some [("A", "foo"); ("B", "bar")]) 7 "publishedAt" None sample_state
      = (inr (<["status" := RStr "ok"]>
                (<["totalResults" := RInt (Z.of_nat (length articles))]>
                   (<["articles" := RList articles]> ∅))),
         s')
      ∧ Forall (λ a, ∃ name u,
                  name ∈ ["A"; "B"]
                  ∧ a !! "trigger_type" = Some (JStr name)
                  ∧ a !! "url" = Some (JStr u) ∧ u ≠ "") articles
      ∧ (∀ i j a b, articles !! i = Some a → articles !! j = Some b →
           a !! "url" = b !! "url" → i = j)
      ∧ length articles = 3%nat.
Proof.
  split; [exact (mk_is_Some _ _ sample_window_week)|].
  destruct (X10_batch_result_is_well_formed sample_clock sample_api
              (Some [("A", "foo"); ("B", "bar")]) 7 "publishedAt" None
              sample_state (mk_is_Some _ _ sample_window_week))
    as (s' & articles & Hrun & Htagged & Hdistinct).
  exists s', articles.
  split; [exact Hrun|]. split; [exact Htagged|]. split; [exact Hdistinct|].
  assert (match (fetch_sales_triggers sample_clock sample_api
                   (Some [("A", "foo"); ("B", "bar")]) 7 "publishedAt" None
                   sample_state).1 with
          | inr r => r !! "totalResults"
          | inl _ => None
          end = Some (RInt 3)) as Htotal by (vm_compute; reflexivity).
  rewrite Hrun in Htotal. cbn [fst] in Htotal.
  rewrite lookup_insert_ne, lookup_insert_eq in Htotal by done.
  injection Htotal as Htotal. lia.
Defined.


Lemma X12_empty_catalog_makes_no_request_witness :
  is_Some (window_start (sample_clock (net sample_state)) 7)
  ∧ fetch_sales_triggers sample_clock sample_api (Some []) 7 "publishedAt"
      (Some "Singapore") sample_state
    = (inr (<["status" := RStr "ok"]>
              (<["totalResults" := RInt 0]> (<["articles" := RList []]> ∅))),
       sample_state).
Proof.
  split; [exact (mk_is_Some _ _ sample_window_week)|].
  exact (X12_empty_catalog_makes_no_request sample_clock sample_api 7
           "publishedAt" (Some "Singapore") sample_state
           (mk_is_Some _ _ sample_window_week)).
Defined.

Lemma X13_an_answer_without_articles_is_still_counted_witness :
  ∃ after,
    trigger_step sample_clock quiet_api "2026-10-27" "2026-11-03" "publishedAt"
      [url_only "u0"] ("A", "foo") sample_state
    = (inr [url_only "u0"],
       State 1%nat (Ledger after) ∅
             [Request "foo" "2026-10-27" "2026-11-03" "publishedAt" "en" None] [])
    ∧ after !! "2026-11-03" = Some 6%Z.
Proof.
  eexists. split.
  - apply (X13_an_answer_without_articles_is_still_counted sample_clock quiet_api
             "2026-10-27" "2026-11-03" "publishedAt" "A" "foo" [url_only "u0"]
             sample_state (ok_response []) 1%nat eq_refl eq_refl).
    right. right. right. reflexivity.
  - apply (tracked_today (sample_clock 1%nat) (Ledger sample_ledger) eq_refl).
Defined.

(** ** Further properties of the persister *)

Section SaveMore.
Local Open Scope list_scope.
Context {world : Type} (clock : world → datetime).
Context (get_everything : request → world → (exn + response) * world).
Context (base_dir : string).
Implicit Types (s : state (world := world)).

(** What a save that writes does. *)
Lemma save_news_to_file_writes news filename query_params s :
  news ≠ ∅ → clock_ok (clock (net s)) = true →
  let fetched := clock (net s) in
  let expires :=
    DateTime (next_day (dt_date fetched)) (hour fetched) (minute fetched)
             (second fetched) (microsecond fetched) in
  let path := path_join (path_join base_dir "data") filename in
  save_news_to_file clock base_dir (Some news) filename query_params s
  = (inr (Some path),
     State (net s) (usage_file s)
           (<[path := Document (Metadata (datetime_isoformat fetched)
                                         (datetime_isoformat expires)
                                         (default ∅ query_params))
                               (news !! "status") (news !! "totalResults")
                               (default (RList []) (news !! "articles"))]>
              (data_files s))
           (sent s) (stdout s ++ [SavedTo path])).
Proof.
  intros Hne Hc. cbv zeta. unfold save_news_to_file.
  rewrite bool_decide_false by done.
  destruct (day_after _ Hc) as [Hd Ha].
  unfold mbind, M_bind, now. rewrite Hd. cbn [or_overflow mret M_ret].
  rewrite Ha. reflexivity.
Qed.

(** X14: the result of [fetch_sales_triggers] is never taken for nothing
    by [save_news_to_file]: saved right after the batch, it is always
    written, and the document on file has status ["ok"] and a total that is
    the number of its articles. *)
Theorem X14_a_batch_is_always_saved
    (trigger_queries : option (list (string * string))) (days_back : Z)
    (order : string) (region : option string) (filename : string)
    (query_params : option (gmap string rval)) s :
  is_Some (window_start (clock (net s)) days_back) →
  (∀ w, clock_ok (clock w) = true) →
  ∃ r s1 path doc s2 articles,
    fetch_sales_triggers clock get_everything trigger_queries days_back order
      region s
    = (inr r, s1)
    ∧ save_news_to_file clock base_dir (Some r) filename query_params s1
      = (inr (Some path), s2)
    ∧ data_files s2 !! path = Some doc
    ∧ doc_status doc = Some (RStr "ok")
    ∧ doc_articles doc = RList articles
    ∧ doc_totalResults doc = Some (RInt (Z.of_nat (length articles))).
Proof.
  intros [start Hw] Hc.
  destruct (fetch_sales_triggers_returns clock get_everything trigger_queries
              days_back order region s start Hw) as (all & s1 & E & _).
  exists (batch_result all), s1. eexists _, _, _, (deduplicate_articles all).
  split; [exact E|]. split.
  { apply save_news_to_file_writes; [apply insert_non_empty | apply Hc]. }
  cbn [data_files]. split; [apply lookup_insert_eq|].
  unfold batch_result. cbn [doc_status doc_articles doc_totalResults].
  rewrite lookup_insert_eq.
  rewrite !(lookup_insert_ne _ "status") by done. rewrite lookup_insert_eq.
  rewrite !(lookup_insert_ne _ "totalResults") by done.
  by rewrite lookup_insert_eq.
Qed.

End SaveMore.

Section ExpiryOrder.
Local Open Scope Z_scope.

Lemma string_app_assoc (a b c : string) : (a +:+ b) +:+ c = a +:+ (b +:+ c).
Proof. induction a as [|ch a IH]; [done|]. rewrite !append_cons. by f_equal. Qed.

Lemma isoformat_app_unfold (d : date) (x : string) :
  isoformat d +:+ x
  = zpad 4 (year d)
    +:+ String "-" (zpad 2 (month d) +:+ String "-" (zpad 2 (day d) +:+ x)).
Proof.
  rewrite isoformat_unfold, string_app_assoc, append_cons.
  rewrite string_app_assoc, append_cons, string_app_assoc. done.
Qed.

(** Strings that start with ISO dates compare as the dates, and as what
    follows when the dates are the same. *)
Lemma isoformat_app_compare (a b : date) (x y : string) :
  valid_date a = true → valid_date b = true →
  String.compare (isoformat a +:+ x) (isoformat b +:+ y)
  = match date_compare a b with Eq => String.compare x y | c => c end.
Proof.
  intros [[Ham Had] Hay]%valid_date_spec [[Hbm Hbd] Hby]%valid_date_spec.
  pose proof (days_in_month_bounds (year a) (month a)).
  pose proof (days_in_month_bounds (year b) (month b)).
  rewrite !isoformat_app_unfold. unfold date_compare.
  rewrite zpad_compare by (change (10 ^ Z.of_nat 4) with 10000; lia).
  destruct (year a ?= year b); try done.
  rewrite compare_cons. change (Ascii.compare "-" "-") with Eq. cbv iota.
  rewrite zpad_compare by (change (10 ^ Z.of_nat 2) with 100; lia).
  destruct (month a ?= month b); try done.
  rewrite compare_cons. change (Ascii.compare "-" "-") with Eq. cbv iota.
  rewrite zpad_compare by (change (10 ^ Z.of_nat 2) with 100; lia).
  done.
Qed.

(** The day after a date before the last year is a date, and a later one. *)
Lemma next_day_later (d : date) :
  valid_date d = true → year d <= 9998 →
  valid_date (next_day d) = true ∧ date_compare d (next_day d) = Lt.
Proof.
  intros [Hf Hy]%valid_date_spec Hy'.
  destruct (next_day_spec d Hf) as (Hf' & Hr & Hyn).
  split; [apply valid_date_spec; split; [done | lia]|].
  rewrite date_compare_rank by done. apply Z.compare_lt_iff. lia.
Qed.

End ExpiryOrder.

Section SaveOrder.
Context {world : Type} (clock : world → datetime) (base_dir : string).
Implicit Types (s : state (world := world)).

(** X16: in a document that is written, [expires_at] is after
    [fetched_at] as a string too, so the two can be compared without being
    parsed. *)
Theorem X16_expiry_is_after_fetch_as_strings (news : response)
    (filename : string) (query_params : option (gmap string rval)) s :
  news ≠ ∅ → clock_ok (clock (net s)) = true →
  ∃ path doc s',
    save_news_to_file clock base_dir (Some news) filename query_params s
    = (inr (Some path), s')
    ∧ data_files s' !! path = Some doc
    ∧ String.ltb (fetched_at (doc_metadata doc)) (expires_at (doc_metadata doc))
      = true.
Proof.
  intros Hne Hc. eexists _, _, _.
  split; [by apply save_news_to_file_writes|].
  cbn [data_files]. split; [apply lookup_insert_eq|].
  cbn [doc_metadata fetched_at expires_at].
  apply clock_ok_spec in Hc as [(Hd & _)%valid_datetime_spec [_ Hy]].
  destruct (next_day_later _ Hd Hy) as [Hv Hlt].
  unfold String.ltb, datetime_isoformat. cbn [dt_date].
  by rewrite isoformat_app_compare, Hlt.
Qed.

End SaveOrder.

(** ** Properties of fetch_top_headlines *)

Section Headlines.
Local Open Scope list_scope.
Context {world : Type} (clock : world → datetime).
Context (get_top_headlines : headlines_request → world → (exn + response) * world).
Implicit Types (s : state (world := world)).

(** X17: [fetch_top_headlines] never raises, whatever its arguments, the
    client and the clock.  When the client raises it returns [None], prints
    the error and leaves the usage file as it was; when the client answers on
    a good clock reading it returns the answer, prints nothing and raises
    today's count by 1.  It writes no file. *)
Theorem X17_fetch_top_headlines_never_raises
    (country category sources : option string) s :
  ∃ r s',
    fetch_top_headlines clock get_top_headlines country category sources s
    = (inr r, s')
    ∧ data_files s' = data_files s ∧ sent s' = sent s
    ∧ match get_top_headlines (HeadlinesRequest country category sources) (net s) with
      | (inl e, w') =>
          r = None ∧ net s' = w' ∧ usage_file s' = usage_file s
          ∧ stdout s' = stdout s ++ [ErrorFetching e]
      | (inr response, w') =>
          net s' = w'
          ∧ (clock_ok (clock w') = true →
             r = Some response ∧ stdout s' = stdout s
             ∧ ∃ after,
                 usage_file s' = Ledger after
                 ∧ after !! isoformat (dt_date (clock w'))
                   = Some (default 0%Z (ledger_of (usage_file s)
                                          !! isoformat (dt_date (clock w'))) + 1)%Z)
      end.
Proof.
  unfold fetch_top_headlines, try_except, mbind at 1, M_bind at 1,
    call_get_top_headlines.
  destruct (get_top_headlines _ (net s)) as [[e|response] w'].
  { eexists _, _. split; [done|]. by cbn. }
  unfold mbind at 1, M_bind at 1.
  match goal with |- context [track_api_usage clock ?s1] =>
    destruct (track_api_usage clock s1) as [[e|[]] s2] eqn:Et end.
  - pose proof Et as (Hnet & Hfiles & Hsent & Hout & _)%track_api_usage_frame.
    cbn [net data_files sent stdout] in *.
    eexists _, _. split; [done|].
    cbn [print mbind M_bind mret M_ret net data_files sent stdout usage_file].
    split; [done|]. split; [done|]. split; [done|].
    intros Hc. rewrite track_api_usage_run in Et by done. done.
  - pose proof Et as (Hnet & Hfiles & Hsent & Hout & _)%track_api_usage_frame.
    cbn [net data_files sent stdout] in *.
    eexists _, _. split; [done|]. cbn [mret M_ret].
    split; [done|]. split; [done|]. split; [done|].
    intros Hc. rewrite track_api_usage_run in Et by done.
    injection Et as <-. cbn [stdout usage_file net].
    split; [done|]. split; [done|]. eexists. split; [done|].
    by apply tracked_today.
Qed.

End Headlines.

(** ** The batch and the usage count *)

Section BatchUsage.
Local Open Scope list_scope.
Context {world : Type} (clock : world → datetime).
Context (get_everything : request → world → (exn + response) * world).
Implicit Types (s : state (world := world)).

Lemma for_each_all_answered (d : date) from_date to_date order queries acc s :
  (∀ req w, ∃ r w', get_everything req w = (inr r, w')) →
  (∀ w, clock_ok (clock w) = true) →
  (∀ w, dt_date (clock w) = d) →
  ∃ all s',
    for_each (trigger_step clock get_everything from_date to_date order) acc queries s
    = (inr all, s')
    ∧ default 0%Z (ledger_of (usage_file s') !! isoformat d)
      = (default 0%Z (ledger_of (usage_file s) !! isoformat d)
         + Z.of_nat (length queries))%Z.
Proof.
  intros Hans Hc Hd. revert acc s.
  induction queries as [|[name query] queries IH]; intros acc s.
  { exists acc, s. split; [done|]. cbn [length Z.of_nat]. by rewrite Z.add_0_r. }
  destruct (Hans (trigger_request from_date to_date order query) (net s))
    as (r & w' & Hg).
  destruct (trigger_step_counts clock get_everything from_date to_date order acc
              name query s r w' Hg (Hc w')) as (acc1 & s1 & E1 & Hu1).
  destruct (IH acc1 s1) as (all & s' & E & Hcount).
  exists all, s'. split.
  - cbn [for_each]. unfold mbind, M_bind. by rewrite E1.
  - rewrite Hcount, Hu1. cbn [ledger_of length].
    rewrite <- (Hd w'), tracked_today by done.
    change (default 0%Z (Some ?x)) with x. lia.
Qed.

(** X18: over a batch that stays within one calendar day and in which the
    client answers every call, today's count as [get_api_usage_today] reads
    it goes up by the number of queries, whatever the answers hold. *)
Theorem X18_an_answered_batch_counts_every_query
    (trigger_queries : option (list (string * string))) (days_back : Z)
    (order : string) (region : option string) s (d : date) (before : Z) :
  is_Some (window_start (clock (net s)) days_back) →
  (∀ req w, ∃ r w', get_everything req w = (inr r, w')) →
  (∀ w, clock_ok (clock w) = true) →
  (∀ w, dt_date (clock w) = d) →
  get_api_usage_today clock s = (inr before, s) →
  ∃ r s',
    fetch_sales_triggers clock get_everything trigger_queries days_back order
      region s
    = (inr r, s')
    ∧ get_api_usage_today clock s'
      = (inr (before
              + Z.of_nat (length (queries_with_region
                                    (default DEFAULT_TRIGGERS trigger_queries)
                                    region)))%Z,
         s').
Proof.
  intros [start Hw] Hans Hc Hd Hb.
  rewrite (fetch_sales_triggers_window _ _ _ _ _ _ _ _ Hw).
  unfold mbind, M_bind.
  destruct (for_each_all_answered d (isoformat (dt_date start))
              (isoformat (dt_date (clock (net s)))) order
              (queries_with_region (default DEFAULT_TRIGGERS trigger_queries) region)
              [] s Hans Hc Hd) as (all & s' & E & Hcount).
  rewrite E. eexists _, s'. split; [done|].
  rewrite get_api_usage_today_run in Hb |- *. injection Hb as Hb.
  rewrite !Hd in *. by rewrite Hcount, Hb.
Qed.

End BatchUsage.

(** X14, X16 and X18 at the sample world. *)
Lemma X14_a_batch_is_always_saved_witness :
  is_Some (window_start (sample_clock (net sample_state)) 7)
  ∧ ∃ r s1 path doc s2 articles,
      fetch_sales_triggers sample_clock sample_api
        (Some [("A", "foo"); ("B", "bar")]) 7 "publishedAt" None sample_state
      = (inr r, s1)
      ∧ save_news_to_file sample_clock "/app" (Some r) "sales_triggers.json" None s1
        = (inr (Some path), s2)
      ∧ data_files s2 !! path = Some doc
      ∧ doc_status doc = Some (RStr "ok")
      ∧ doc_articles doc = RList articles
      ∧ doc_totalResults doc = Some (RInt (Z.of_nat (length articles))).
Proof.
  split; [exact (mk_is_Some _ _ sample_window_week)|].
  exact (X14_a_batch_is_always_saved sample_clock sample_api "/app"
           (Some [("A", "foo"); ("B", "bar")]) 7 "publishedAt" None
           "sales_triggers.json" None sample_state
           (mk_is_Some _ _ sample_window_week) sample_clock_ok).
Defined.

Lemma X16_expiry_is_after_fetch_as_strings_witness :
  clock_ok (sample_clock (net sample_state)) = true
  ∧ ∃ path doc s',
      save_news_to_file sample_clock "/app" (Some (ok_response [url_only "u1"]))
        "news_data.json" None sample_state
      = (inr (Some path), s')
      ∧ data_files s' !! path = Some doc
      ∧ String.ltb (fetched_at (doc_metadata doc)) (expires_at (doc_metadata doc))
        = true.
Proof.
  split; [reflexivity|].
  apply (X16_expiry_is_after_fetch_as_strings sample_clock "/app"
           (ok_response [url_only "u1"]) "news_data.json" None sample_state).
  - apply insert_non_empty.
  - reflexivity.
Defined.

Lemma X18_an_answered_batch_counts_every_query_witness :
  is_Some (window_start (sample_clock (net sample_state)) 7)
  ∧ get_api_usage_today sample_clock sample_state = (inr 5%Z, sample_state)
  ∧ ∃ r s',
      fetch_sales_triggers sample_clock quiet_api None 7 "publishedAt"
        (Some "Singapore") sample_state
      = (inr r, s')
      ∧ get_api_usage_today sample_clock s' = (inr 8%Z, s').
Proof.
  split; [exact (mk_is_Some _ _ sample_window_week)|]. split; [reflexivity|].
  apply (X18_an_answered_batch_counts_every_query sample_clock quiet_api None 7
           "publishedAt" (Some "Singapore") sample_state (Date 2026 11 3) 5
           (mk_is_Some _ _ sample_window_week)).
  - intros req w. by eexists _, _.
  - exact sample_clock_ok.
  - reflexivity.
  - reflexivity.
Defined.
